(** * GeoIA Territorial: the data store and the code execution engine

    A shallow embedding of [src/core/data_store.py],
    [src/core/execution_engine.py] and the code detection of
    [src/components/chat.py], with the properties of the catalog
    ([GeoDataStore]) and of the sandbox ([CodeExecutionEngine]) stated
    and proved over it.

    Conventions.
    - Python [str] values are Rocq strings (the UTF-8 bytes of the text).
      A text that a regular expression reads is the list of its
      characters (code points), as [re] sees it.
    - A Python [dict] is an association list that keeps insertion order
      and updates in place ([PyDict]): the loops over [self.layers] and
      over [exec_globals.items()] run in that order.
    - Objects with identity (data frames, maps) carry the number the
      allocator gave them; reference equality is equality of numbers.
    - Code that can raise returns an [outcome]. *)

From Stdlib Require Import String Ascii List Bool Arith ZArith QArith Lia.
From Stdlib Require Import Permutation.
Import ListNotations.

Local Close Scope Q_scope.
Local Open Scope nat_scope.
Local Open Scope string_scope.
Local Open Scope list_scope.

Set Implicit Arguments.

(** ** Python dictionaries *)

Module PyDict.
Section Dict.
Variable V : Type.

Definition dict := list (string * V).

Definition empty : dict := [].

(** [d[k]], [None] when [k not in d]. *)
Fixpoint get (d : dict) (k : string) : option V :=
  match d with
  | [] => None
  | (k', v) :: d' => if String.eqb k' k then Some v else get d' k
  end.

(** [k in d] *)
Definition mem (d : dict) (k : string) : bool :=
  match get d k with Some _ => true | None => false end.

(** [d[k] = v]: an existing key keeps its position, a new key goes last. *)
Fixpoint set (d : dict) (k : string) (v : V) : dict :=
  match d with
  | [] => [(k, v)]
  | (k', v') :: d' =>
      if String.eqb k' k then (k', v) :: d' else (k', v') :: set d' k v
  end.

(** [del d[k]] *)
Fixpoint del (d : dict) (k : string) : dict :=
  match d with
  | [] => []
  | (k', v') :: d' =>
      if String.eqb k' k then d' else (k', v') :: del d' k
  end.

Definition keys (d : dict) : list string := map fst d.
Definition values (d : dict) : list V := map snd d.
Definition items (d : dict) : list (string * V) := d.
Definition len (d : dict) : nat := length d.

End Dict.
End PyDict.

(** ** Strings *)

(** The small letter of an ASCII capital; other bytes are unchanged. *)
Definition lower_ascii (c : ascii) : ascii :=
  let n := nat_of_ascii c in
  if Nat.leb 65 n && Nat.leb n 90 then ascii_of_nat (n + 32) else c.

(** [s.startswith(p)] *)
Definition startswith (s p : string) : bool := String.prefix p s.

Definition newline : string := String (ascii_of_nat 10) EmptyString.

(** A text read character by character: the list of its code points. *)
Definition text := list N.

(** The text of an ASCII literal. *)
Definition of_string (s : string) : text :=
  map N_of_ascii (list_ascii_of_string s).

(** [a == b] on texts *)
Fixpoint text_eqb (a b : text) : bool :=
  match a, b with
  | [], [] => true
  | x :: a', y :: b' => N.eqb x y && text_eqb a' b'
  | _, _ => false
  end.

(** [\s] on [str]: the characters for which [str.isspace] holds. *)
Definition is_whitespace (c : N) : bool :=
  ((9 <=? c) && (c <=? 13) || (28 <=? c) && (c <=? 32)
   || (c =? 133) || (c =? 160) || (c =? 5760)
   || (8192 <=? c) && (c <=? 8202)
   || (c =? 8232) || (c =? 8233) || (c =? 8239) || (c =? 8287)
   || (c =? 12288))%N.

(** ** Results of code that can raise *)

(** A raised exception: [type(e).__name__], [str(e)], the text that
    [traceback.format_exc()] renders for it, and [isinstance(e, Exception)]
    (false for the exceptions that derive from [BaseException] only, such
    as [KeyboardInterrupt] and [SystemExit]). *)
Record exn := {
  exc_type : string;
  exc_msg : string;
  exc_trace : string;
  exc_is_Exception : bool
}.

Inductive outcome (A : Type) : Type :=
| Returned (a : A)
| Raised (e : exn).
Arguments Returned {A} a.
Arguments Raised {A} e.

(** ** The data store ([src/core/data_store.py]) *)

Module DataStore.

(** *** Paths ([pathlib.Path])

    A path is its text ([str(p)]) in the normal form of [pathlib], POSIX
    flavour: a root of no, one or two slashes, then the components
    separated by one slash, none of them empty or a single dot, no slash
    at the end; the path without root and components is a single dot. *)

Definition Path := string.

(** [s.rpartition(sep)], [None] when [sep] does not occur in [s]. *)
Fixpoint rsplit (sep : ascii) (s : string) : option (string * string) :=
  match s with
  | EmptyString => None
  | String c s' =>
      match rsplit sep s' with
      | Some (a, b) => Some (String c a, b)
      | None => if Ascii.eqb c sep then Some (EmptyString, s') else None
      end
  end.

Definition nonempty (s : string) : bool :=
  match s with EmptyString => false | _ => true end.

(** [s.split(sep)] *)
Fixpoint split_on (sep : ascii) (s : string) : list string :=
  match s with
  | EmptyString => [EmptyString]
  | String c s' =>
      if Ascii.eqb c sep then EmptyString :: split_on sep s'
      else
        match split_on sep s' with
        | part :: parts => String c part :: parts
        | [] => [String c EmptyString]
        end
  end.

(** The root of a path text and what follows it: two slashes at the
    start, and no more, are a root of their own. *)
Definition splitroot (s : string) : string * string :=
  match s with
  | String c1 rest1 =>
      if Ascii.eqb c1 "/" then
        match rest1 with
        | String c2 rest2 =>
            if Ascii.eqb c2 "/" then
              match rest2 with
              | String c3 _ =>
                  if Ascii.eqb c3 "/" then ("/", rest1) else ("//", rest2)
              | EmptyString => ("//", rest2)
              end
            else ("/", rest1)
        | EmptyString => ("/", rest1)
        end
      else ("", s)
  | EmptyString => ("", s)
  end.

(** [Path(s)]: the root, and the components of the rest that are neither
    empty nor a single dot. *)
Definition Path_of (s : string) : Path :=
  let '(root, rel) := splitroot s in
  let parts :=
    filter (fun x => nonempty x && negb (String.eqb x "."))
      (split_on "/" rel) in
  match root, parts with
  | EmptyString, [] => "."
  | _, _ => (root ++ String.concat "/" parts)%string
  end.

(** [s.endswith(c)] *)
Fixpoint ends_with (c : ascii) (s : string) : bool :=
  match s with
  | EmptyString => false
  | String d EmptyString => Ascii.eqb d c
  | String _ s' => ends_with c s'
  end.

(** [posixpath.join(a, b)] *)
Definition posix_join (a b : string) : string :=
  if startswith b "/" then b
  else if negb (nonempty a) || ends_with "/" a then (a ++ b)%string
  else (a ++ "/" ++ b)%string.

(** [p.name]: the last component of the path, empty when there is none. *)
Definition path_name (p : Path) : string :=
  if String.eqb p "." then ""
  else
    match rsplit "/" p with
    | Some (_, b) => b
    | None => p
    end.

(** [p.suffix]: from the last dot of the name on, when that dot is neither
    the first nor the last character of the name. *)
Definition suffix (p : Path) : string :=
  match rsplit "." (path_name p) with
  | Some (a, b) => if nonempty a && nonempty b then String "." b else ""
  | None => ""
  end.

(** [p.stem]: the name without its suffix. *)
Definition stem (p : Path) : string :=
  match rsplit "." (path_name p) with
  | Some (a, b) => if nonempty a && nonempty b then a else path_name p
  | None => path_name p
  end.

(** [root / child] *)
Definition joinpath (root : Path) (child : string) : Path :=
  Path_of (posix_join root child).

(** *** Data frames and the file system *)

(** [gdf.total_bounds] as a tuple. *)
Definition bounds_t := (Q * Q * Q * Q)%type.

(** What [gpd.read_file] parses from a file. A file without geometries
    gives a plain [DataFrame], of which [gdf.geometry] and [gdf.crs]
    raise. *)
Record FrameData := {
  fd_has_geometry : bool;             (* a [GeoDataFrame], not a plain [DataFrame] *)
  fd_columns : list string;           (* [gdf.columns], geometry included *)
  fd_crs : option string;             (* [str(gdf.crs)], [None] when unset *)
  fd_geom_type : list (option string);(* [gdf.geometry.geom_type], one per row *)
  fd_total_bounds : option bounds_t   (* [None]: computing the bounds raises *)
}.

(** A materialized [GeoDataFrame]: an object with an identity. *)
Record GeoDataFrame := {
  gdf_id : nat;
  gdf_data : FrameData
}.

(** What the store runs on: the directory tree it looks at, the readers
    of [geopandas] and [fiona], and [str.lower] with the tables of
    characters of the interpreter. [read_file] and [fiona_len] are [None]
    where [gpd.read_file] and [fiona.open] raise. Nothing is assumed of
    [str_lower]. *)
Record FileSystem := {
  fs_exists : Path -> bool;
  fs_is_file : Path -> bool;
  fs_rglob : Path -> list Path;       (* [folder.rglob("*")], in traversal order *)
  fs_st_size : Path -> Z;
  read_file : Path -> option FrameData;
  fiona_len : Path -> option nat;
  str_lower : string -> string        (* [s.lower()] *)
}.

(** *** Records of the catalog *)

Record LayerInfo := {
  name : string;
  path : Path;
  format : string;
  geometry_type : option string;
  crs : option string;
  feature_count : nat;
  columns : list string;
  bounds : option bounds_t;
  loaded : bool;
  gdf : option GeoDataFrame
}.

Record DocumentInfo := {
  doc_name : string;
  doc_path : Path;
  doc_format : string;
  size_kb : Q;
  content_preview : string;
  extracted_text : option string
}.

(** The summary [_scan_folder] returns. *)
Record scan_result := {
  capas : nat;
  documentos : nat;
  mapas : nat
}.

(** What an observer is told. *)
Inductive event :=
| connected (summary : scan_result)
| layer_loaded (layer_name : string) (frame : GeoDataFrame).

(** Observers are opaque callables; one is known by a number, and a call
    to it is recorded in [notified]. Observers do not call back into the
    store. *)
Definition observer := nat.

(** The part of the world a store operation reads and writes besides the
    store itself: the object allocator, the log of [gpd.read_file] calls,
    the clock and the calls made to observers. The clock is known by
    what it will show: [clock n] is the time the call of [datetime.now()]
    after [n] others returns. *)
Record IO := {
  next_id : nat;
  read_log : list Path;
  clock : nat -> nat;
  notified : list (observer * event)
}.

Definition log_read (io : IO) (file : Path) : IO :=
  {| next_id := next_id io; read_log := read_log io ++ [file];
     clock := clock io; notified := notified io |}.

(** [datetime.now()] *)
Definition datetime_now (io : IO) : nat * IO :=
  (clock io 0,
   {| next_id := next_id io; read_log := read_log io;
      clock := fun n => clock io (S n); notified := notified io |}).

Record GeoDataStore := {
  root_path : option Path;
  layers : PyDict.dict LayerInfo;
  documents : PyDict.dict DocumentInfo;
  maps : PyDict.dict Path;
  is_connected : bool;
  last_scan : option nat;
  _observers : list observer
}.

Definition LAYER_EXTENSIONS : list string :=
  [".shp"; ".geojson"; ".gpkg"; ".kml"; ".gml"; ".json"].
Definition DOC_EXTENSIONS : list string :=
  [".pdf"; ".docx"; ".doc"; ".txt"; ".md"; ".csv"; ".xlsx"].
Definition MAP_EXTENSIONS : list string :=
  [".qgz"; ".qgs"; ".qml"; ".sld"].

(** [x in xs] *)
Definition contains (xs : list string) (x : string) : bool :=
  existsb (String.eqb x) xs.

(** [GeoDataStore.__init__] *)
Definition __init__ : GeoDataStore :=
  {| root_path := None; layers := []; documents := []; maps := [];
     is_connected := false; last_scan := None; _observers := [] |}.

(** [s.replace('.', '')] *)
Fixpoint remove_dots (s : string) : string :=
  match s with
  | EmptyString => EmptyString
  | String c s' => if Ascii.eqb c "." then remove_dots s' else String c (remove_dots s')
  end.

Section Operations.
Variable fs : FileSystem.

(** The entry [_analyze_layer] falls back to when reading the file raises. *)
Definition basic_info (file : Path) : LayerInfo :=
  {| name := stem file; path := file;
     format := remove_dots (str_lower fs (suffix file));
     geometry_type := None; crs := None; feature_count := 0;
     columns := []; bounds := None; loaded := false; gdf := None |}.

(** [_analyze_layer]: metadata of a layer, read without keeping the frame.
    Every exit returns an entry named [file.stem] that holds no frame. *)
Definition _analyze_layer (io : IO) (file : Path) : LayerInfo * IO :=
  let io1 := log_read io file in
  match read_file fs file with                (* [gpd.read_file(file, rows=1)] *)
  | None => (basic_info file, io1)
  | Some head =>
      let counted :=
        if String.eqb (str_lower fs (suffix file)) ".shp" then
          (fiona_len fs file, io1)
        else
          let io2 := log_read io1 file in      (* [gpd.read_file(file)] *)
          (option_map (fun full => length (fd_geom_type full)) (read_file fs file), io2)
      in
      match counted with
      | (None, io2) => (basic_info file, io2)
      | (Some count, io2) =>
          let io3 := log_read io2 file in      (* [gpd.read_file(file)], inner [try] *)
          let total :=
            match read_file fs file with
            | Some full => fd_total_bounds full
            | None => None
            end in
          if fd_has_geometry head then
            ({| name := stem file; path := file;
                format := remove_dots (str_lower fs (suffix file));
                geometry_type :=
                  match fd_geom_type head with
                  | [] => None
                  | g :: _ => g
                  end;
                crs := fd_crs head;
                feature_count := count;
                columns :=
                  filter (fun c => negb (String.eqb c "geometry")) (fd_columns head);
                bounds := total;
                loaded := false; gdf := None |}, io3)
          else (basic_info file, io3)   (* [gdf.geometry] raises *)
      end
  end.

(** One turn of the loop of [_scan_layers]: the set of shapefile stems seen,
    the layers found and the world. *)
Definition scan_layers_state := (list string * PyDict.dict LayerInfo * IO)%type.

Definition _scan_layers_step (acc : scan_layers_state) (file : Path)
  : scan_layers_state :=
  let '(processed_shapefiles, lyrs, io) := acc in
  if contains LAYER_EXTENSIONS (str_lower fs (suffix file)) then
    if String.eqb (str_lower fs (suffix file)) ".shp" then
      if contains processed_shapefiles (stem file) then acc   (* [continue] *)
      else
        let '(layer_info, io') := _analyze_layer io file in
        (stem file :: processed_shapefiles,
         PyDict.set lyrs (name layer_info) layer_info, io')
    else
      let '(layer_info, io') := _analyze_layer io file in
      (processed_shapefiles, PyDict.set lyrs (name layer_info) layer_info, io')
  else acc.

(** [_scan_layers] *)
Definition _scan_layers (lyrs : PyDict.dict LayerInfo) (io : IO) (folder : Path)
  : PyDict.dict LayerInfo * IO :=
  let '(_, lyrs', io') :=
    fold_left _scan_layers_step (fs_rglob fs folder) ([], lyrs, io) in
  (lyrs', io').

(** [_scan_documents] *)
Definition _scan_documents (docs : PyDict.dict DocumentInfo) (folder : Path)
  : PyDict.dict DocumentInfo :=
  fold_left
    (fun docs file =>
       if contains DOC_EXTENSIONS (str_lower fs (suffix file)) && fs_is_file fs file then
         PyDict.set docs (stem file)
           {| doc_name := stem file; doc_path := file;
              doc_format := remove_dots (str_lower fs (suffix file));
              size_kb := (inject_Z (fs_st_size fs file) / 1024)%Q;
              content_preview := ""; extracted_text := None |}
       else docs)
    (fs_rglob fs folder) docs.

(** [_scan_maps] *)
Definition _scan_maps (mps : PyDict.dict Path) (folder : Path)
  : PyDict.dict Path :=
  fold_left
    (fun mps file =>
       if contains MAP_EXTENSIONS (str_lower fs (suffix file)) then
         PyDict.set mps (stem file) file
       else mps)
    (fs_rglob fs folder) mps.

(** [_notify_observers]: every observer is called, in order; what an
    observer raises is swallowed. *)
Definition _notify_observers (self : GeoDataStore) (io : IO) (e : event) : IO :=
  {| next_id := next_id io; read_log := read_log io; clock := clock io;
     notified := notified io ++ map (fun o => (o, e)) (_observers self) |}.

(** The folder a scan looks into: the subfolder when it exists, else the root. *)
Definition subfolder_or_root (root : Path) (sub : string) : Path :=
  if fs_exists fs (joinpath root sub) then joinpath root sub else root.

(** [_scan_folder], on the three dictionaries of the store. *)
Definition _scan_folder (self : GeoDataStore) (io : IO) (root : Path)
  : scan_result * GeoDataStore * IO :=
  let '(lyrs, io') := _scan_layers (layers self) io (subfolder_or_root root "capas") in
  let docs := _scan_documents (documents self) (subfolder_or_root root "documentos") in
  let mps := _scan_maps (maps self) (subfolder_or_root root "mapas") in
  ({| capas := PyDict.len lyrs; documentos := PyDict.len docs;
      mapas := PyDict.len mps |},
   {| root_path := root_path self; layers := lyrs; documents := docs;
      maps := mps; is_connected := is_connected self;
      last_scan := last_scan self; _observers := _observers self |},
   io').

(** What [connect] returns: the dictionary with [success] false and the
    error text, or the one with [success] true, the summary and the time
    of the scan. *)
Inductive connect_result :=
| connect_error (error : string)
| connect_ok (summary : scan_result) (timestamp : nat).

(** [connect] *)
Definition connect (self : GeoDataStore) (io : IO) (path : string)
  : connect_result * GeoDataStore * IO :=
  let root : Path := Path_of path in
  if negb (fs_exists fs root) then
    (connect_error ("La carpeta no existe: " ++ path)%string, self, io)
  else
    let cleared :=
      {| root_path := Some root; layers := []; documents := []; maps := [];
         is_connected := is_connected self; last_scan := last_scan self;
         _observers := _observers self |} in
    let '(summary, scanned, io1) := _scan_folder cleared io root in
    let '(time, io2) := datetime_now io1 in
    let self' :=
      {| root_path := root_path scanned; layers := layers scanned;
         documents := documents scanned; maps := maps scanned;
         is_connected := true; last_scan := Some time;
         _observers := _observers scanned |} in
    let io3 := _notify_observers self' io2 (connected summary) in
    (connect_ok summary time, self', io3).

(** [layer.gdf = gdf; layer.loaded = True] on the entry object. *)
Definition set_loaded (layer : LayerInfo) (frame : GeoDataFrame) : LayerInfo :=
  {| name := name layer; path := path layer; format := format layer;
     geometry_type := geometry_type layer; crs := crs layer;
     feature_count := feature_count layer; columns := columns layer;
     bounds := bounds layer; loaded := true; gdf := Some frame |}.

Definition with_layers (self : GeoDataStore) (lyrs : PyDict.dict LayerInfo)
  : GeoDataStore :=
  {| root_path := root_path self; layers := lyrs;
     documents := documents self; maps := maps self;
     is_connected := is_connected self; last_scan := last_scan self;
     _observers := _observers self |}.

(** [load_layer]: the frame of a layer, read on first use. *)
Definition load_layer (self : GeoDataStore) (io : IO) (layer_name : string)
  : option GeoDataFrame * GeoDataStore * IO :=
  match PyDict.get (layers self) layer_name with
  | None => (None, self, io)
  | Some layer =>
      match gdf layer with
      | Some frame => (Some frame, self, io)
      | None =>
          let io1 := log_read io (path layer) in    (* [gpd.read_file(layer.path)] *)
          match read_file fs (path layer) with
          | None => (None, self, io1)               (* [except]: [return None] *)
          | Some data =>
              let frame := {| gdf_id := next_id io1; gdf_data := data |} in
              let io2 :=
                {| next_id := S (next_id io1); read_log := read_log io1;
                   clock := clock io1; notified := notified io1 |} in
              let self' :=
                with_layers self
                  (PyDict.set (layers self) layer_name (set_loaded layer frame)) in
              let io3 := _notify_observers self' io2 (layer_loaded layer_name frame) in
              (Some frame, self', io3)
          end
      end
  end.

(** [load_all_layers] *)
Definition load_all_layers (self : GeoDataStore) (io : IO)
  : PyDict.dict GeoDataFrame * GeoDataStore * IO :=
  fold_left
    (fun acc layer_name =>
       let '(loaded_frames, self1, io1) := acc in
       let '(got, self2, io2) := load_layer self1 io1 layer_name in
       match got with
       | Some frame => (PyDict.set loaded_frames layer_name frame, self2, io2)
       | None => (loaded_frames, self2, io2)
       end)
    (PyDict.keys (layers self)) ([], self, io).

End Operations.

(** The dictionary [LayerInfo.to_dict] returns: every field but the frame. *)
Record layer_dict := {
  d_name : string;
  d_path : string;
  d_format : string;
  d_geometry_type : option string;
  d_crs : option string;
  d_feature_count : nat;
  d_columns : list string;
  d_bounds : option bounds_t;
  d_loaded : bool
}.

(** [LayerInfo.to_dict] *)
Definition to_dict (self : LayerInfo) : layer_dict :=
  {| d_name := name self; d_path := path self; d_format := format self;
     d_geometry_type := geometry_type self; d_crs := crs self;
     d_feature_count := feature_count self; d_columns := columns self;
     d_bounds := bounds self; d_loaded := loaded self |}.

(** [get_layer_names] *)
Definition get_layer_names (self : GeoDataStore) : list string :=
  PyDict.keys (layers self).

(** [get_layer_info] *)
Definition get_layer_info (self : GeoDataStore) (layer_name : string)
  : option layer_dict :=
  if PyDict.mem (layers self) layer_name then
    option_map to_dict (PyDict.get (layers self) layer_name)
  else None.

(** [get_all_layers_info] *)
Definition get_all_layers_info (self : GeoDataStore) : list layer_dict :=
  map to_dict (PyDict.values (layers self)).

(** [add_observer] *)
Definition add_observer (self : GeoDataStore) (callback : observer)
  : GeoDataStore :=
  {| root_path := root_path self; layers := layers self;
     documents := documents self; maps := maps self;
     is_connected := is_connected self; last_scan := last_scan self;
     _observers := _observers self ++ [callback] |}.

(** [get_summary] *)
Record summary_t := {
  sm_connected : bool;
  sm_root_path : option string;
  total_capas : nat;
  total_documentos : nat;
  total_mapas : nat;
  capas_cargadas : nat;
  sm_last_scan : option nat
}.

Definition get_summary (self : GeoDataStore) : summary_t :=
  {| sm_connected := is_connected self;
     sm_root_path := root_path self;
     total_capas := PyDict.len (layers self);
     total_documentos := PyDict.len (documents self);
     total_mapas := PyDict.len (maps self);
     capas_cargadas :=
       length (filter (fun l => loaded l) (PyDict.values (layers self)));
     sm_last_scan := last_scan self |}.

End DataStore.

(** ** The execution engine ([src/core/execution_engine.py]) *)

Module Engine.

(** *** Deny patterns and the regular expressions they use

    The patterns of [FORBIDDEN_PATTERNS] are kept as the source writes
    them. They use literal characters, the escapes [\s], [\.] and [\(],
    the dot and the postfix operators [*] and [+]; [re_compile] reads
    exactly that fragment. Matching follows [re.search] with
    [re.IGNORECASE] on a [str]: the script is read character by
    character, a letter of a pattern matches without regard to case,
    [\s] is the white space of [str.isspace], the dot is any character
    but the line feed. *)

Inductive atom :=
| Lit (c : ascii)
| Space
| AnyChar.

Inductive quant := One | Star | Plus.

Definition regex := list (atom * quant).

Definition flush (pending : option atom) : regex :=
  match pending with
  | Some a => [(a, One)]
  | None => []
  end.

Definition escaped (c : ascii) : atom :=
  if Ascii.eqb c "s" then Space else Lit c.

(** [pending] is the atom read last, which a following [*] or [+] repeats. *)
Fixpoint re_parse (pending : option atom) (s : string) : regex :=
  match s with
  | EmptyString => flush pending
  | String c rest =>
      if Ascii.eqb c "*" then
        match pending with
        | Some a => (a, Star) :: re_parse None rest
        | None => re_parse None rest
        end
      else if Ascii.eqb c "+" then
        match pending with
        | Some a => (a, Plus) :: re_parse None rest
        | None => re_parse None rest
        end
      else if Ascii.eqb c "\" then
        match rest with
        | String e rest' => flush pending ++ re_parse (Some (escaped e)) rest'
        | EmptyString => flush pending
        end
      else if Ascii.eqb c "." then flush pending ++ re_parse (Some AnyChar) rest
      else flush pending ++ re_parse (Some (Lit c)) rest
  end.

Definition re_compile (pattern : string) : regex := re_parse None pattern.

(** The character [re.IGNORECASE] compares in place of [c] with an ASCII
    character of a pattern. A capital stands for its small letter. Four
    characters outside ASCII match a letter of ASCII: the dotted capital
    I (U+0130) and the dotless i (U+0131) match [i], the long s (U+017F)
    matches [s], the Kelvin sign (U+212A) matches [k]. *)
Definition fold_case (c : N) : N :=
  (if (65 <=? c) && (c <=? 90) then c + 32
   else if (c =? 304) || (c =? 305) then 105
   else if c =? 383 then 115
   else if c =? 8490 then 107
   else c)%N.

Definition atom_matches (a : atom) (c : N) : bool :=
  match a with
  | Lit l => N.eqb (fold_case c) (fold_case (N_of_ascii l))
  | Space => is_whitespace c
  | AnyChar => negb (N.eqb c 10)
  end.

(** Zero or more characters matching [a], then [k] on the rest. *)
Fixpoint star (a : atom) (k : text -> bool) (s : text) : bool :=
  k s ||
  match s with
  | c :: s' => atom_matches a c && star a k s'
  | [] => false
  end.

(** Does a prefix of [s] match [r]? *)
Fixpoint match_here (r : regex) (s : text) : bool :=
  match r with
  | [] => true
  | (a, One) :: r' =>
      match s with
      | c :: s' => atom_matches a c && match_here r' s'
      | [] => false
      end
  | (a, Star) :: r' => star a (match_here r') s
  | (a, Plus) :: r' =>
      match s with
      | c :: s' => atom_matches a c && star a (match_here r') s'
      | [] => false
      end
  end.

Fixpoint search_from (r : regex) (s : text) : bool :=
  match_here r s ||
  match s with
  | _ :: s' => search_from r s'
  | [] => false
  end.

(** [re.search(pattern, code, re.IGNORECASE)] as a truth value. *)
Definition re_search (pattern : string) (code : text) : bool :=
  search_from (re_compile pattern) code.

Definition FORBIDDEN_PATTERNS : list string :=
  [ "import\s+os";
    "import\s+subprocess";
    "import\s+sys";
    "__import__";
    "eval\s*\(";
    "exec\s*\(";
    "open\s*\(";
    "file\s*\(";
    "input\s*\(";
    "os\.";
    "subprocess\.";
    "shutil\.";
    "pathlib\.Path.*unlink";
    "\.remove\s*\(";
    "\.delete\s*\(";
    "\.rmdir\s*\(" ].

(** [validate_code]: the first pattern of the list found in the code
    decides; it is named in the message. *)
Definition validate_code (code : text) : bool * string :=
  match find (fun pattern => re_search pattern code) FORBIDDEN_PATTERNS with
  | Some pattern =>
      (false, ("Operación no permitida detectada: " ++ pattern)%string)
  | None => (true, "")
  end.

(** *** Values, the shared [folium] module and the engine *)

(** The class of an object created at run time. *)
Inductive klass := KMap | KGeoDataFrame | KDataFrame.

(** What [ALLOWED_MODULES] gives access to: four modules and two classes. *)
Inductive library :=
| Geopandas | Pandas | Numpy | Folium | MarkerCluster | HeatMap.

Inductive value :=
| VNone
| VInt (z : Z)
| VStr (s : string)
| VObj (id : nat) (k : klass)   (* an object with identity *)
| VLib (l : library)
| VBuiltin (f : string)         (* a member of the [__builtins__] given to the script *)
| VBuiltins                     (* that dictionary itself *)
| VLayers.                      (* the dictionary [self.layers] *)

(** What the attribute [Map] of the [folium] module can be: the class
    itself, or the closure [capture_map] an [execute] call made around
    the value the attribute had ([original_folium_map]). *)
Inductive ctor :=
| MapClass
| CaptureMap (original_folium_map : ctor).

(** The state shared by all calls: the attribute [Map] of the [folium]
    module, the attribute [Map] set on any other object, and the object
    allocator. *)
Record World := {
  folium_Map : ctor;
  Map_attr : list (value * ctor);
  next_id : nat
}.

Record CodeExecutionEngine := {
  layers : PyDict.dict value;
  results : PyDict.dict value;
  generated_maps : list value;
  generated_figures : list value
}.

(** [CodeExecutionEngine.__init__] *)
Definition __init__ (lyrs : PyDict.dict value) : CodeExecutionEngine :=
  {| layers := lyrs; results := []; generated_maps := [];
     generated_figures := [] |}.

(** [set_layers] *)
Definition set_layers (self : CodeExecutionEngine) (lyrs : PyDict.dict value)
  : CodeExecutionEngine :=
  {| layers := lyrs; results := results self;
     generated_maps := generated_maps self;
     generated_figures := generated_figures self |}.

Definition klass_eqb (a b : klass) : bool :=
  match a, b with
  | KMap, KMap | KGeoDataFrame, KGeoDataFrame | KDataFrame, KDataFrame => true
  | _, _ => false
  end.

Definition library_eqb (a b : library) : bool :=
  match a, b with
  | Geopandas, Geopandas | Pandas, Pandas | Numpy, Numpy | Folium, Folium
  | MarkerCluster, MarkerCluster | HeatMap, HeatMap => true
  | _, _ => false
  end.

(** [a == b] on the values of the model (identity for objects). *)
Definition value_eqb (a b : value) : bool :=
  match a, b with
  | VNone, VNone => true
  | VInt x, VInt y => Z.eqb x y
  | VStr x, VStr y => String.eqb x y
  | VObj i k, VObj j l => Nat.eqb i j && klass_eqb k l
  | VLib x, VLib y => library_eqb x y
  | VBuiltin x, VBuiltin y => String.eqb x y
  | VBuiltins, VBuiltins => true
  | VLayers, VLayers => true
  | _, _ => false
  end.

(** The names of the dictionary given as [__builtins__]. *)
Definition builtin_functions : list string :=
  ["print"; "len"; "sum"; "min"; "max"; "abs"; "round"; "sorted";
   "isinstance"; "hasattr"; "getattr"].
Definition builtin_types : list string :=
  ["range"; "list"; "dict"; "str"; "int"; "float"; "bool"; "tuple"; "set";
   "enumerate"; "zip"; "map"; "filter"; "type"].

Definition contains (xs : list string) (x : string) : bool :=
  existsb (String.eqb x) xs.

Definition ALLOWED_MODULES : PyDict.dict value :=
  [ ("geopandas", VLib Geopandas);
    ("gpd", VLib Geopandas);
    ("pandas", VLib Pandas);
    ("pd", VLib Pandas);
    ("numpy", VLib Numpy);
    ("np", VLib Numpy);
    ("folium", VLib Folium);
    ("MarkerCluster", VLib MarkerCluster);
    ("HeatMap", VLib HeatMap) ].

(** [type(v).__name__] *)
Definition type_name (v : value) : string :=
  match v with
  | VNone => "NoneType"
  | VInt _ => "int"
  | VStr _ => "str"
  | VObj _ KMap => "Map"
  | VObj _ KGeoDataFrame => "GeoDataFrame"
  | VObj _ KDataFrame => "DataFrame"
  | VLib MarkerCluster | VLib HeatMap => "type"
  | VLib _ => "module"
  | VBuiltin f =>
      if contains builtin_types f then "type" else "builtin_function_or_method"
  | VBuiltins | VLayers => "dict"
  end.

(** *** Exceptions the interpreter raises by itself *)

(** The text of [traceback.format_exc()]; the lines of the frames are
    left out. *)
Definition trace_text (kind msg : string) : string :=
  ("Traceback (most recent call last):" ++ newline
     ++ kind ++ ": " ++ msg ++ newline)%string.

Definition raise_Exception (kind msg : string) : exn :=
  {| exc_type := kind; exc_msg := msg; exc_trace := trace_text kind msg;
     exc_is_Exception := true |}.

Definition NameError (x : string) : exn :=
  raise_Exception "NameError" ("name '" ++ x ++ "' is not defined")%string.

Definition KeyError (k : string) : exn :=
  raise_Exception "KeyError" ("'" ++ k ++ "'")%string.

(** What reading or writing [v.Map] raises when [v] has no such attribute
    and cannot take one. *)
Definition no_Map_attribute (v : value) : exn :=
  match v with
  | VLib MarkerCluster =>
      raise_Exception "AttributeError"
        "type object 'MarkerCluster' has no attribute 'Map'"
  | VLib HeatMap =>
      raise_Exception "AttributeError"
        "type object 'HeatMap' has no attribute 'Map'"
  | VLib Geopandas =>
      raise_Exception "AttributeError" "module 'geopandas' has no attribute 'Map'"
  | VLib Pandas =>
      raise_Exception "AttributeError" "module 'pandas' has no attribute 'Map'"
  | VLib Numpy =>
      raise_Exception "AttributeError" "module 'numpy' has no attribute 'Map'"
  | _ =>
      raise_Exception "AttributeError"
        ("'" ++ type_name v ++ "' object has no attribute 'Map'")%string
  end.

Definition immutable_type (f : string) : exn :=
  raise_Exception "TypeError"
    ("cannot set 'Map' attribute of immutable type '" ++ f ++ "'")%string.

Definition isinstance_arg2 : exn :=
  raise_Exception "TypeError"
    "isinstance() arg 2 must be a type, a tuple of types, or a union".

(** *** Attributes *)

(** Modules, classes and run-time objects take new attributes; [None],
    numbers, strings, dictionaries and builtins do not. *)
Definition takes_attributes (v : value) : bool :=
  match v with
  | VObj _ _ | VLib _ => true
  | _ => false
  end.

Fixpoint assoc_get (l : list (value * ctor)) (v : value) : option ctor :=
  match l with
  | [] => None
  | (v', c) :: l' => if value_eqb v' v then Some c else assoc_get l' v
  end.

Fixpoint assoc_set (l : list (value * ctor)) (v : value) (c : ctor)
  : list (value * ctor) :=
  match l with
  | [] => [(v, c)]
  | (v', c') :: l' =>
      if value_eqb v' v then (v', c) :: l' else (v', c') :: assoc_set l' v c
  end.

(** [v.Map] *)
Definition getattr_Map (v : value) (w : World) : outcome ctor :=
  match v with
  | VLib Folium => Returned (folium_Map w)
  | _ =>
      match assoc_get (Map_attr w) v with
      | Some c => Returned c
      | None => Raised (no_Map_attribute v)
      end
  end.

(** [v.Map = c] *)
Definition setattr_Map (v : value) (c : ctor) (w : World) : outcome World :=
  match v with
  | VLib Folium =>
      Returned {| folium_Map := c; Map_attr := Map_attr w; next_id := next_id w |}
  | VBuiltin f =>
      if contains builtin_types f then Raised (immutable_type f)
      else Raised (no_Map_attribute v)
  | _ =>
      if takes_attributes v then
        Returned {| folium_Map := folium_Map w;
                    Map_attr := assoc_set (Map_attr w) v c;
                    next_id := next_id w |}
      else Raised (no_Map_attribute v)
  end.

(** [isinstance(v, c)]: [c] must be a class; the closure [capture_map] is
    a function, for which [isinstance] raises [TypeError]. *)
Definition isinstance_Map (v : value) (c : ctor) : outcome bool :=
  match c with
  | MapClass =>
      Returned match v with VObj _ KMap => true | _ => false end
  | CaptureMap _ => Raised isinstance_arg2
  end.

(** *** Runs of scripts

    [exec(code, exec_globals)] runs any Python. What it does is a
    parameter of [execute]: an [interpreter] takes the text of a script
    and the state of the run to how the run ends and the state it
    leaves. The state is all that [execute] reads after the run: the
    namespace, the shared world, the engine (the script has [self.layers]
    itself as [layers] and [capas], and reaches [self] through the
    closure [capture_map]) and the text written so far. A run that does
    not end is not described: [execute] then does not return either. *)

Definition namespace := PyDict.dict value.

(** The state of a run: [exec_globals], the shared world, the engine
    and the buffer the standard output is redirected to. *)
Record run_state := {
  globals : namespace;
  world : World;
  engine : CodeExecutionEngine;
  stdout : string
}.

Definition interpreter := text -> run_state -> outcome unit * run_state.

(** **** A fragment of Python

    The meaning of a few statements, for the scripts of the examples:
    text written to the standard output, bindings of the namespace made
    and removed, maps built through [folium.Map], and an exception
    raised. *)

Inductive expr :=
| Const (v : value)             (* a value computed without effect *)
| Name (x : string)             (* [x] *)
| NewMap.                       (* [folium.Map(...)] *)

Inductive stmt :=
| SPrint (text : string)        (* [print(text)], with the builtin [print] *)
| SAssign (x : string) (e : expr)   (* [x = e] *)
| SExpr (e : expr)              (* [e] *)
| SDel (x : string)             (* [del x] *)
| SRaise (e : exn).             (* [raise e'], where [e'] evaluates without
                                   other effect to the exception [e] *)

(** Calling the value of [folium.Map]. The class makes a new map; the
    closure [capture_map] calls what it wraps, appends the map to
    [self.generated_maps] and returns it. *)
Fixpoint call_ctor (c : ctor) (st : run_state) : value * run_state :=
  match c with
  | MapClass =>
      (VObj (next_id (world st)) KMap,
       {| globals := globals st;
          world := {| folium_Map := folium_Map (world st);
                      Map_attr := Map_attr (world st);
                      next_id := S (next_id (world st)) |};
          engine := engine st; stdout := stdout st |})
  | CaptureMap original_folium_map =>
      let '(m, st') := call_ctor original_folium_map st in
      (m,
       {| globals := globals st'; world := world st';
          engine := {| layers := layers (engine st');
                       results := results (engine st');
                       generated_maps := generated_maps (engine st') ++ [m];
                       generated_figures := generated_figures (engine st') |};
          stdout := stdout st' |})
  end.

(** A name is looked up in the namespace, then in the builtins the run
    started with ([builtins_ok]: [__builtins__] was the dictionary of
    [execute] when the run started). *)
Definition lookup_name (builtins_ok : bool) (g : namespace) (x : string)
  : outcome value :=
  match PyDict.get g x with
  | Some v => Returned v
  | None =>
      if builtins_ok && (contains builtin_functions x || contains builtin_types x)
      then Returned (VBuiltin x)
      else Raised (NameError x)
  end.

Definition eval (builtins_ok : bool) (e : expr) (st : run_state)
  : outcome value * run_state :=
  match e with
  | Const v => (Returned v, st)
  | Name x => (lookup_name builtins_ok (globals st) x, st)
  | NewMap =>
      match lookup_name builtins_ok (globals st) "folium" with
      | Raised e => (Raised e, st)
      | Returned holder =>
          match getattr_Map holder (world st) with
          | Raised e => (Raised e, st)
          | Returned c =>
              let '(m, st') := call_ctor c st in (Returned m, st')
          end
      end
  end.

Definition with_globals (st : run_state) (g : namespace) : run_state :=
  {| globals := g; world := world st; engine := engine st;
     stdout := stdout st |}.

Definition exec_stmt (builtins_ok : bool) (s : stmt) (st : run_state)
  : outcome unit * run_state :=
  match s with
  | SPrint text =>
      (Returned tt,
       {| globals := globals st; world := world st; engine := engine st;
          stdout := (stdout st ++ text ++ newline)%string |})
  | SAssign x e =>
      match eval builtins_ok e st with
      | (Returned v, st') => (Returned tt, with_globals st' (PyDict.set (globals st') x v))
      | (Raised ex, st') => (Raised ex, st')
      end
  | SExpr e =>
      match eval builtins_ok e st with
      | (Returned _, st') => (Returned tt, st')
      | (Raised ex, st') => (Raised ex, st')
      end
  | SDel x =>
      if PyDict.mem (globals st) x
      then (Returned tt, with_globals st (PyDict.del (globals st) x))
      else (Raised (NameError x), st)
  | SRaise ex => (Raised ex, st)
  end.

(** The statements of a script run in order until one raises. *)
Fixpoint exec_code (builtins_ok : bool) (body : list stmt) (st : run_state)
  : outcome unit * run_state :=
  match body with
  | [] => (Returned tt, st)
  | s :: rest =>
      match exec_stmt builtins_ok s st with
      | (Returned _, st') => exec_code builtins_ok rest st'
      | (Raised ex, st') => (Raised ex, st')
      end
  end.

(** *** [execute] *)

(** The dictionary [execute] returns; a key a branch does not set is [None]. *)
Record result_t := {
  success : bool;
  error : option string;
  output : string;
  result : value;
  maps : list value;
  figures : list value;
  traceback : option string;
  variables : option (PyDict.dict string)
}.

(** [re.sub(r'[^a-zA-Z0-9_]', '_', name)]: every character that is not an
    ASCII letter, digit or underscore becomes one underscore. A character
    outside ASCII is several bytes of the text: its first byte gives the
    underscore and its continuation bytes (0x80 to 0xBF) give nothing. *)
Definition is_word (c : ascii) : bool :=
  let n := nat_of_ascii c in
  (Nat.leb 48 n && Nat.leb n 57) || (Nat.leb 65 n && Nat.leb n 90)
  || (Nat.leb 97 n && Nat.leb n 122) || Nat.eqb n 95.

Fixpoint safe_name (name : string) : string :=
  match name with
  | EmptyString => EmptyString
  | String c rest =>
      let n := nat_of_ascii c in
      if is_word c then String c (safe_name rest)
      else if Nat.leb 128 n && Nat.leb n 191 then safe_name rest
      else String "_" (safe_name rest)
  end.

(** [d.update(other)] *)
Definition update (d other : namespace) : namespace :=
  fold_left (fun acc kv => PyDict.set acc (fst kv) (snd kv)) other d.

(** [exec_globals] as [execute] prepares it. *)
Definition make_exec_globals (self : CodeExecutionEngine) : namespace :=
  let literal :=
    update
      (update [("__builtins__", VBuiltins)] ALLOWED_MODULES)
      [("layers", VLayers); ("capas", VLayers)] in
  fold_left
    (fun acc kv => PyDict.set acc (safe_name (fst kv)) (snd kv))
    (PyDict.items (layers self)) literal.

Definition RESULT_NAMES : list string :=
  ["resultado"; "result"; "output"; "mapa"; "map"; "gdf"; "df"].

(** The first of [names] bound to a value that is not [None]. *)
Fixpoint find_result (g : namespace) (names : list string) : value :=
  match names with
  | [] => VNone
  | var_name :: rest =>
      match PyDict.get g var_name with
      | Some VNone | None => find_result g rest
      | Some v => v
      end
  end.

(** [m in ms] *)
Definition value_in (m : value) (ms : list value) : bool :=
  existsb (value_eqb m) ms.

(** The loop that adds the maps bound in the namespace to
    [self.generated_maps]; [folium_map] is the value [folium.Map] has
    while the loop runs. The loop stops where [isinstance] raises. *)
Fixpoint collect_maps (folium_map : ctor) (bindings : list (string * value))
  (found : list value) : outcome unit * list value :=
  match bindings with
  | [] => (Returned tt, found)
  | (_, var_value) :: rest =>
      match isinstance_Map var_value folium_map with
      | Raised ex => (Raised ex, found)
      | Returned true =>
          if negb (value_in var_value found)
          then collect_maps folium_map rest (found ++ [var_value])
          else collect_maps folium_map rest found
      | Returned false => collect_maps folium_map rest found
      end
  end.

Definition with_generated_maps (self : CodeExecutionEngine) (ms : list value)
  : CodeExecutionEngine :=
  {| layers := layers self; results := results self;
     generated_maps := ms; generated_figures := generated_figures self |}.

Definition variables_of (g : namespace) : PyDict.dict string :=
  map (fun kv => (fst kv, type_name (snd kv)))
    (filter
       (fun kv => negb (startswith (fst kv) "_")
                  && negb (PyDict.mem ALLOWED_MODULES (fst kv)))
       (PyDict.items g)).

(** The builtins a run starts with are those of [execute] when
    [__builtins__] is still the dictionary it put there. *)
Definition builtins_ok (g : namespace) : bool :=
  match PyDict.get g "__builtins__" with
  | Some VBuiltins => true
  | _ => false
  end.

(** The interpreter on the scripts of the fragment, [parse] giving the
    statements of a text. *)
Definition exec_fragment (parse : text -> list stmt) : interpreter :=
  fun code st => exec_code (builtins_ok (globals st)) (parse code) st.

Section Execute.
(** What [exec] does. *)
Variable python : interpreter.

(** The body of the [try]: the run under the redirected output, then the
    search for the result and for the maps. *)
Definition try_body (code : text) (st : run_state)
  : outcome result_t * run_state :=
  match python code st with
  | (Raised ex, st1) => (Raised ex, st1)
  | (Returned _, st1) =>
      let res := find_result (globals st1) RESULT_NAMES in
      let '(scanned, found) :=
        collect_maps (folium_Map (world st1)) (PyDict.items (globals st1))
          (generated_maps (engine st1)) in
      let st2 :=
        {| globals := globals st1; world := world st1;
           engine := with_generated_maps (engine st1) found;
           stdout := stdout st1 |} in
      match scanned with
      | Raised ex => (Raised ex, st2)
      | Returned _ =>
          (Returned
             {| success := true; error := None; output := stdout st2;
                result := res; maps := generated_maps (engine st2);
                figures := generated_figures (engine st2);
                traceback := None;
                variables := Some (variables_of (globals st2)) |},
           st2)
      end
  end.

(** [except Exception as e]: what derives from [Exception] becomes the
    failure dictionary; anything else goes on. *)
Definition except_Exception (r : outcome result_t * run_state)
  : outcome result_t * run_state :=
  match r with
  | (Raised ex, st) =>
      if exc_is_Exception ex then
        (Returned
           {| success := false;
              error := Some (exc_type ex ++ ": " ++ exc_msg ex)%string;
              output := stdout st; result := VNone; maps := [];
              figures := []; traceback := Some (exc_trace ex);
              variables := None |},
         st)
      else (Raised ex, st)
  | ok => ok
  end.

(** [finally]: [exec_globals['folium'].Map = original_folium_map]. What
    this statement raises replaces the result of the [try]. *)
Definition finally_restore (original_folium_map : ctor)
  (r : outcome result_t * run_state)
  : outcome result_t * CodeExecutionEngine * World :=
  let '(res, st) := r in
  match PyDict.get (globals st) "folium" with
  | None => (Raised (KeyError "folium"), engine st, world st)
  | Some holder =>
      match setattr_Map holder original_folium_map (world st) with
      | Raised ex => (Raised ex, engine st, world st)
      | Returned w => (res, engine st, w)
      end
  end.

(** [execute] *)
Definition execute (self : CodeExecutionEngine) (w : World) (code : text)
  : outcome result_t * CodeExecutionEngine * World :=
  let '(is_valid, err) := validate_code code in
  if negb is_valid then
    (Returned
       {| success := false; error := Some err; output := ""; result := VNone;
          maps := []; figures := []; traceback := None; variables := None |},
     self, w)
  else
    let exec_globals := make_exec_globals self in
    let self1 :=
      {| layers := layers self; results := results self;
         generated_maps := []; generated_figures := [] |} in
    let original_folium_map := folium_Map w in
    let capture_map := CaptureMap original_folium_map in
    match PyDict.get exec_globals "folium" with
    | None => (Raised (KeyError "folium"), self1, w)
    | Some holder =>
        match setattr_Map holder capture_map w with
        | Raised ex => (Raised ex, self1, w)
        | Returned w1 =>
            finally_restore original_folium_map
              (except_Exception
                 (try_body code
                    {| globals := exec_globals; world := w1; engine := self1;
                       stdout := "" |}))
        end
    end.

End Execute.

(** *** [generate_geoprocessing_code]

    [str.format] on the templates of the function: text, the escapes
    [{{] and [}}], and fields [{name}] that are plain names, looked up in
    the keyword arguments. The values of the arguments are their texts
    ([str(value)]). *)

Inductive piece :=
| Chr (c : ascii)                 (* a character of the text *)
| Field (name : string)           (* [{name}] *)
| Malformed (e : exn).            (* where the format string is ill-formed *)

Definition format_error (msg : string) : exn :=
  raise_Exception "ValueError" msg.

(** The pieces of a format string, left to right; [field] is the name
    being read, inside braces. *)
Fixpoint format_parse (field : option string) (s : string) : list piece :=
  match s with
  | EmptyString =>
      match field with
      | None => []
      | Some _ => [Malformed (format_error "expected '}' before end of string")]
      end
  | String c rest =>
      match field with
      | Some name =>
          if Ascii.eqb c "}" then Field name :: format_parse None rest
          else format_parse (Some (name ++ String c "")%string) rest
      | None =>
          if Ascii.eqb c "{" then
            match rest with
            | String d rest' =>
                if Ascii.eqb d "{" then Chr "{" :: format_parse None rest'
                else format_parse (Some "") rest
            | EmptyString =>
                [Malformed (format_error "Single '{' encountered in format string")]
            end
          else if Ascii.eqb c "}" then
            match rest with
            | String d rest' =>
                if Ascii.eqb d "}" then Chr "}" :: format_parse None rest'
                else [Malformed (format_error "Single '}' encountered in format string")]
            | EmptyString =>
                [Malformed (format_error "Single '}' encountered in format string")]
            end
          else Chr c :: format_parse None rest
      end
  end.

(** The text of the pieces, left to right; a field that is not a keyword
    argument raises [KeyError]. *)
Fixpoint render (pieces : list piece) (kwargs : PyDict.dict string)
  : outcome string :=
  match pieces with
  | [] => Returned ""
  | Chr c :: rest =>
      match render rest kwargs with
      | Returned s => Returned (String c s)
      | Raised e => Raised e
      end
  | Field name :: rest =>
      match PyDict.get kwargs name with
      | None => Raised (KeyError name)
      | Some v =>
          match render rest kwargs with
          | Returned s => Returned (v ++ s)%string
          | Raised e => Raised e
          end
      end
  | Malformed e :: _ => Raised e
  end.

(** [template.format], called with the keyword arguments [kwargs] *)
Definition str_format (template : string) (kwargs : PyDict.dict string)
  : outcome string :=
  render (format_parse None template) kwargs.

Definition double_quote : string := String (ascii_of_nat 34) EmptyString.

Definition buffer_template : string :=
  String.concat double_quote
    ["
# Buffer de {distance} metros a la capa {layer}
resultado = capas['{layer}'].copy()
if resultado.crs.is_geographic:
    resultado = resultado.to_crs(resultado.estimate_utm_crs())
resultado['geometry'] = resultado.geometry.buffer({distance})
resultado = resultado.to_crs('EPSG:4326')
print(f";
     "Buffer creado: {{len(resultado)}} elementos";
     ")
"].

Definition intersection_template : string :=
  String.concat double_quote
    ["
# Intersección entre {layer1} y {layer2}
capa1 = capas['{layer1}']
capa2 = capas['{layer2}']
resultado = gpd.overlay(capa1, capa2, how='intersection')
print(f";
     "Intersección: {{len(resultado)}} elementos resultantes";
     ")
"].

Definition area_template : string :=
  String.concat double_quote
    ["
# Calcular área de {layer}
resultado = capas['{layer}'].copy()
if resultado.crs.is_geographic:
    resultado_proj = resultado.to_crs(resultado.estimate_utm_crs())
    resultado['area_m2'] = resultado_proj.geometry.area
    resultado['area_ha'] = resultado['area_m2'] / 10000
else:
    resultado['area_m2'] = resultado.geometry.area
    resultado['area_ha'] = resultado['area_m2'] / 10000
print(f";
     "Área total: {{resultado['area_ha'].sum():.2f}} hectáreas";
     ")
"].

Definition map_template : string :=
  String.concat double_quote
    ["
# Crear mapa de {layer}
capa = capas['{layer}']
if capa.crs != 'EPSG:4326':
    capa = capa.to_crs('EPSG:4326')

bounds = capa.total_bounds
center = [(bounds[1] + bounds[3]) / 2, (bounds[0] + bounds[2]) / 2]

mapa = folium.Map(location=center, tiles='{tiles}')
mapa.fit_bounds([[bounds[1], bounds[0]], [bounds[3], bounds[2]]])

folium.GeoJson(
    capa,
    style_function=lambda x: {{
        'fillColor': '{color}',
        'color': '#000000',
        'weight': 1,
        'fillOpacity': 0.6
    }}
).add_to(mapa)

resultado = mapa
"].

Definition templates : PyDict.dict string :=
  [ ("buffer", buffer_template);
    ("intersection", intersection_template);
    ("area", area_template);
    ("map", map_template) ].

(** [generate_geoprocessing_code] *)
Definition generate_geoprocessing_code (operation : string)
  (params : PyDict.dict string) : outcome string :=
  match PyDict.get templates operation with
  | Some template => str_format template params
  | None =>
      Returned ("# Operación '" ++ operation ++ "' no reconocida")%string
  end.

End Engine.

(** ** The chat component ([src/components/chat.py]) *)

Module Chat.

(** *** The code block of a response

    [generate_response] looks for the first fenced block of Python in the
    text of the response with
    [re.search(r'```python\s*(.*?)\s*```', response_text, re.DOTALL)] and
    keeps [group(1)]. Matching is the backtracking search of [re]: at each
    position from the left, the items of the pattern in order, a greedy
    star trying the longest run first, a lazy star the shortest. *)

Inductive catom :=
| CLit (c : N)        (* the character itself *)
| CSpace              (* [\s] *)
| CAny.               (* the dot, under [re.DOTALL] *)

Inductive citem :=
| Once (a : catom)
| Greedy (a : catom)  (* [a*] *)
| Lazy (a : catom)    (* [a*?] *)
| GroupOpen           (* the opening parenthesis of group 1 *)
| GroupClose.         (* its closing parenthesis *)

Definition catom_matches (a : catom) (c : N) : bool :=
  match a with
  | CLit l => N.eqb c l
  | CSpace => is_whitespace c
  | CAny => true
  end.

(** The text of the group so far, with [c] added while the group is open. *)
Definition push (grp : bool) (c : N) (cap : text) : text :=
  if grp then cap ++ [c] else cap.

(** [a*] then [k]: the longest run of [a] first. *)
Fixpoint greedy (a : catom) (k : text -> text -> option text) (grp : bool)
  (s cap : text) : option text :=
  match s with
  | c :: s' =>
      if catom_matches a c then
        match greedy a k grp s' (push grp c cap) with
        | Some g => Some g
        | None => k s cap
        end
      else k s cap
  | [] => k s cap
  end.

(** [a*?] then [k]: the shortest run of [a] first. *)
Fixpoint lazy (a : catom) (k : text -> text -> option text) (grp : bool)
  (s cap : text) : option text :=
  match k s cap with
  | Some g => Some g
  | None =>
      match s with
      | c :: s' =>
          if catom_matches a c then lazy a k grp s' (push grp c cap) else None
      | [] => None
      end
  end.

(** A match of the items [r] at the start of [s]: the text of group 1. *)
Fixpoint run (r : list citem) (grp : bool) (s cap : text) : option text :=
  match r with
  | [] => Some cap
  | Once a :: r' =>
      match s with
      | c :: s' =>
          if catom_matches a c then run r' grp s' (push grp c cap) else None
      | [] => None
      end
  | Greedy a :: r' => greedy a (run r' grp) grp s cap
  | Lazy a :: r' => lazy a (run r' grp) grp s cap
  | GroupOpen :: r' => run r' true s []
  | GroupClose :: r' => run r' false s cap
  end.

(** [re.search(...).group(1)], [None] when there is no match. *)
Fixpoint search_group (r : list citem) (s : text) : option text :=
  match run r false s [] with
  | Some g => Some g
  | None =>
      match s with
      | _ :: s' => search_group r s'
      | [] => None
      end
  end.

Definition literal (s : string) : list citem :=
  map (fun c => Once (CLit c)) (of_string s).

(** The pattern [```python\s*(.*?)\s*```]. *)
Definition CODE_BLOCK : list citem :=
  literal "```python"
  ++ [Greedy CSpace; GroupOpen; Lazy CAny; GroupClose; Greedy CSpace]
  ++ literal "```".

(** The value [generate_response] stores under the key [code]; [None]
    when it does not set the key. *)
Definition extract_code (response_text : text) : option text :=
  search_group CODE_BLOCK response_text.

(** Properties of texts the statements use. *)
Definition backtick : N := 96%N.

Definition all_space (s : text) : bool := forallb is_whitespace s.

Definition no_backtick (s : text) : bool :=
  forallb (fun c => negb (N.eqb c backtick)) s.

Definition starts_with_space (s : text) : bool :=
  match s with
  | c :: _ => is_whitespace c
  | [] => false
  end.

Definition ends_with_space (s : text) : bool := starts_with_space (rev s).

End Chat.

(** * Sample data

    Two small knowledge bases and a few scripts, used to run the
    definitions on concrete inputs. *)

Module Sample.
Import DataStore.

Definition folders : list Path :=
  ["/kb"; "/kb/capas"; "/kb/capas/zona"; "/kb/documentos"; "/kb/mapas"].

Definition files : list Path :=
  [ "/kb/capas/rios.shp"; "/kb/capas/rios.shx"; "/kb/capas/rios.dbf";
    "/kb/capas/zona"; "/kb/capas/zona/rios.shp";
    "/kb/capas/vias.geojson";
    "/kb/documentos/plan.pdf"; "/kb/documentos/plan.txt";
    "/kb/mapas/base.qgz" ].

Definition rios_data : FrameData :=
  {| fd_has_geometry := true;
     fd_columns := ["nombre"; "orden"; "geometry"];
     fd_crs := Some "EPSG:4326";
     fd_geom_type := [Some "LineString"; Some "LineString"];
     fd_total_bounds := Some ((-75) # 1, 4 # 1, (-74) # 1, 5 # 1)%Q |}.

(** [s.lower()] for a text [s] of ASCII characters, which the names of
    the sample files are. *)
Fixpoint ascii_lower (s : string) : string :=
  match s with
  | EmptyString => EmptyString
  | String c s' => String (lower_ascii c) (ascii_lower s')
  end.

(** [rios.shp] parses; [vias.geojson] is corrupt. *)
Definition kb : FileSystem :=
  {| fs_exists := fun p => contains folders p || contains files p;
     fs_is_file := fun p => contains files p && negb (contains folders p);
     fs_rglob := fun folder =>
       filter (fun p => String.prefix (folder ++ "/")%string p) files;
     fs_st_size := fun _ => 2048%Z;
     read_file := fun p =>
       if String.eqb (stem p) "rios" then Some rios_data else None;
     fiona_len := fun p =>
       if String.eqb (stem p) "rios" then Some 2 else None;
     str_lower := ascii_lower |}.

(** The clock shows 17 at the first call, and one more at each call. *)
Definition io0 : IO :=
  {| next_id := 0; read_log := []; clock := fun n => 17 + n; notified := [] |}.

(** The store after [connect] on the knowledge base. *)
Definition connected_store : GeoDataStore :=
  snd (fst (connect kb __init__ io0 "/kb")).
Definition connected_io : IO :=
  snd (connect kb __init__ io0 "/kb").

(** The store after [load_layer] of [rios]. *)
Definition loaded_store : GeoDataStore :=
  snd (fst (load_layer kb connected_store connected_io "rios")).
Definition loaded_io : IO :=
  snd (load_layer kb connected_store connected_io "rios").

(** The frame [load_layer] made for [rios], and the entry of [vias]. *)
Definition rios_frame : GeoDataFrame :=
  {| gdf_id := 0; gdf_data := rios_data |}.
Definition vias_entry : LayerInfo :=
  basic_info kb "/kb/capas/vias.geojson".

(** A second tree, without subfolders, in which both layers parse, and
    the store after [connect] and [load_all_layers] on it. *)
Definition cuenca_files : list Path :=
  ["cuenca/Rios.SHP"; "cuenca/vias.geojson"].

Definition cuenca : FileSystem :=
  {| fs_exists := fun p => String.eqb p "cuenca" || contains cuenca_files p;
     fs_is_file := fun p => contains cuenca_files p;
     fs_rglob := fun folder =>
       if String.eqb folder "cuenca" then cuenca_files else [];
     fs_st_size := fun _ => 512%Z;
     read_file := fun p =>
       if contains cuenca_files p then Some rios_data else None;
     fiona_len := fun _ => Some 2;
     str_lower := ascii_lower |}.

Definition cuenca_store : GeoDataStore :=
  snd (fst (load_all_layers cuenca
              (snd (fst (connect cuenca __init__ io0 "./cuenca/")))
              (snd (connect cuenca __init__ io0 "./cuenca/")))).
Definition cuenca_io : IO :=
  snd (load_all_layers cuenca
         (snd (fst (connect cuenca __init__ io0 "./cuenca/")))
         (snd (connect cuenca __init__ io0 "./cuenca/"))).

End Sample.

(** * Vocabulary of the statements *)

Module Terms.
Import DataStore.

(** The files the three scans keep. *)
Definition is_layer_file (fs : FileSystem) (file : Path) : bool :=
  contains LAYER_EXTENSIONS (str_lower fs (suffix file)).




Definition has_frame (layer : LayerInfo) : bool :=
  match gdf layer with Some _ => true | None => false end.

(** The flag [loaded] of every layer says whether the entry holds a frame. *)
Definition flag_matches (layer : LayerInfo) : bool :=
  Bool.eqb (loaded layer) (has_frame layer).

Definition consistent (self : GeoDataStore) : Prop :=
  forallb flag_matches (PyDict.values (layers self)) = true.

(** The load states the specification speaks of. [LayerInfo] has the
    flag [loaded] and the field [gdf] only. *)
Inductive loadState := NotLoaded | Loaded | Failed.

(** The elements of [xs] not in [seen], each at its first occurrence. *)
Fixpoint first_occurrences (seen xs : list string) : list string :=
  match xs with
  | [] => []
  | x :: xs' =>
      if contains seen x then first_occurrences seen xs'
      else x :: first_occurrences (x :: seen) xs'
  end.

(** The frame the entry of a name holds, if any. *)
Definition frame_of (lyrs : PyDict.dict LayerInfo) (k : string)
  : option GeoDataFrame :=
  match PyDict.get lyrs k with
  | Some layer => gdf layer
  | None => None
  end.

(** [d] with the flag [loaded] set. *)
Definition marked_loaded (d : layer_dict) : layer_dict :=
  {| d_name := d_name d; d_path := d_path d; d_format := d_format d;
     d_geometry_type := d_geometry_type d; d_crs := d_crs d;
     d_feature_count := d_feature_count d; d_columns := d_columns d;
     d_bounds := d_bounds d; d_loaded := true |}.

(** The states of a store and its world that the operations of the store
    lead to, from a new store. *)
Inductive reachable (fs : FileSystem) : GeoDataStore -> IO -> Prop :=
| reach_init io : reachable fs __init__ io
| reach_connect self io root :
    reachable fs self io ->
    reachable fs (snd (fst (connect fs self io root)))
      (snd (connect fs self io root))
| reach_load_layer self io layer_name :
    reachable fs self io ->
    reachable fs (snd (fst (load_layer fs self io layer_name)))
      (snd (load_layer fs self io layer_name))
| reach_load_all_layers self io :
    reachable fs self io ->
    reachable fs (snd (fst (load_all_layers fs self io)))
      (snd (load_all_layers fs self io))
| reach_add_observer self io callback :
    reachable fs self io ->
    reachable fs (add_observer self callback) io.

(** What holds of the layers of a reachable store: the keys are distinct;
    an entry is filed under its name, which is the base name of its path,
    a layer file; a frame an entry holds was made by the allocator, holds
    what the file of the entry parses to, and is held by no other entry. *)
Record layers_wf (fs : FileSystem) (self : GeoDataStore) (io : IO) : Prop := {
  wf_keys : NoDup (PyDict.keys (layers self));
  wf_entry :
    forall k layer, In (k, layer) (layers self) ->
      name layer = k /\ stem (path layer) = k
      /\ is_layer_file fs (path layer) = true
      /\ format layer = remove_dots (str_lower fs (suffix (path layer)));
  wf_frame :
    forall k layer frame, In (k, layer) (layers self) ->
      gdf layer = Some frame ->
      gdf_id frame < next_id io
      /\ read_file fs (path layer) = Some (gdf_data frame);
  wf_owner :
    forall k1 l1 f1 k2 l2 f2,
      In (k1, l1) (layers self) -> In (k2, l2) (layers self) ->
      gdf l1 = Some f1 -> gdf l2 = Some f2 ->
      gdf_id f1 = gdf_id f2 -> k1 = k2
}.

End Terms.

Module EngineTerms.
Import Engine.

(** The state [execute] starts the run in: the namespace it prepared, the
    module [folium] with [Map] replaced by [capture_map], the engine with
    its lists emptied, and an empty buffer. *)
Definition start_state (self : CodeExecutionEngine) (w : World) : run_state :=
  {| globals := make_exec_globals self;
     world := {| folium_Map := CaptureMap (folium_Map w);
                 Map_attr := Map_attr w; next_id := next_id w |};
     engine := {| layers := layers self; results := results self;
                  generated_maps := []; generated_figures := [] |};
     stdout := "" |}.

(** The run of the script by [exec], from the state [execute] starts it
    in: how it ended and the state it left. *)
Definition after_run (python : interpreter)
  (self : CodeExecutionEngine) (w : World) (code : text)
  : outcome unit * run_state :=
  python code (start_state self w).



(** The instances of [folium.Map]. *)
Definition is_map (v : value) : bool :=
  match v with
  | VObj _ KMap => true
  | _ => false
  end.

(** The maps bound in the namespace that are not yet in [found], added
    to it in the order of the bindings. *)
Definition with_namespace_maps (bindings : list (string * value))
  (found : list value) : list value :=
  fold_left
    (fun acc kv =>
       if is_map (snd kv) && negb (value_in (snd kv) acc)
       then acc ++ [snd kv] else acc)
    bindings found.

(** The name is unbound, or bound to [None]. *)
Definition unset (g : namespace) (x : string) : Prop :=
  PyDict.get g x = None \/ PyDict.get g x = Some VNone.

(** The text is made of ASCII letters, digits and underscores. *)
Fixpoint all_word (s : string) : bool :=
  match s with
  | EmptyString => true
  | String c rest => is_word c && all_word rest
  end.

(** The bindings [execute] writes as a dictionary literal, before it adds
    the layers. *)
Definition literal_globals : namespace :=
  update
    (update [("__builtins__", VBuiltins)] ALLOWED_MODULES)
    [("layers", VLayers); ("capas", VLayers)].

(** The text with its ASCII capitals as small letters. *)
Definition lower_char (c : N) : N :=
  (if (65 <=? c) && (c <=? 90) then c + 32 else c)%N.

Definition lower_case (s : text) : text := map lower_char s.

(** The names of the fields of a format string, in the order [render]
    meets them. *)
Fixpoint fields (pieces : list piece) : list string :=
  match pieces with
  | [] => []
  | Chr _ :: rest => fields rest
  | Field name :: rest => name :: fields rest
  | Malformed _ :: _ => []
  end.

Fixpoint well_formed (pieces : list piece) : bool :=
  match pieces with
  | [] => true
  | Malformed _ :: _ => false
  | _ :: rest => well_formed rest
  end.

(** The fields of the template of an operation; none when the operation
    has no template. *)
Definition template_fields (operation : string) : list string :=
  match PyDict.get templates operation with
  | Some template => fields (format_parse None template)
  | None => []
  end.

End EngineTerms.

Module SampleScripts.
Import Engine.

(** The exception of [raise print.__self__.KeyboardInterrupt]: the
    builtin [print] has the module [builtins] as [__self__], which holds
    the classes the dictionary given to the script leaves out. *)
Definition KeyboardInterrupt : exn :=
  {| exc_type := "KeyboardInterrupt"; exc_msg := "";
     exc_trace := trace_text "KeyboardInterrupt" "";
     exc_is_Exception := false |}.

Definition SyntaxError : exn :=
  raise_Exception "SyntaxError" "invalid syntax".

(** The statements of the scripts of the examples, which are in the
    fragment; the examples use no other text. *)
Definition parse (code : text) : list stmt :=
  if text_eqb code (of_string "folium = None") then
    [SAssign "folium" (Const VNone)]
  else if text_eqb code
            (of_string "resultado = folium.Map(); detalle = folium.Map()") then
    [SAssign "resultado" NewMap; SAssign "detalle" NewMap]
  else if text_eqb code
            (of_string "print('hola'); resultado = datos; print('fin')") then
    [SPrint "hola"; SAssign "resultado" (Name "datos"); SPrint "fin"]
  else if text_eqb code
            (of_string "print('hola'); raise print.__self__.KeyboardInterrupt") then
    [SPrint "hola"; SRaise KeyboardInterrupt]
  else if text_eqb code (of_string "mapa = folium.Map()") then
    [SAssign "mapa" NewMap]
  else
    [SRaise SyntaxError].

Definition python : interpreter := exec_fragment parse.

(** The world before any call, and an engine over one layer. *)
Definition w0 : World :=
  {| folium_Map := MapClass; Map_attr := []; next_id := 1 |}.

Definition engine0 : CodeExecutionEngine :=
  __init__ [("rios", VObj 0 KGeoDataFrame)].

End SampleScripts.

(** * Properties *)

Unset Implicit Arguments.

(** ** Dictionaries *)

Section DictFacts.
Variable V : Type.
Implicit Types (d : PyDict.dict V) (k : string) (v : V).

Lemma dict_get_set_same d k v : PyDict.get (PyDict.set d k v) k = Some v.
Proof.
  induction d as [|[k' v'] d IH]; simpl.
  - now rewrite String.eqb_refl.
  - destruct (String.eqb k' k) eqn:E; simpl; rewrite E; auto.
Qed.

Lemma dict_get_set_other d k k' v :
  k <> k' -> PyDict.get (PyDict.set d k v) k' = PyDict.get d k'.
Proof.
  intros Hne. induction d as [|[k0 v0] d IH]; simpl.
  - destruct (String.eqb k k') eqn:E; auto.
    apply String.eqb_eq in E. contradiction.
  - destruct (String.eqb k0 k) eqn:E; simpl.
    + apply String.eqb_eq in E. subst k0.
      destruct (String.eqb k k') eqn:E'; auto.
      apply String.eqb_eq in E'. contradiction.
    + now rewrite IH.
Qed.

Lemma dict_keys_set d k v :
  PyDict.keys (PyDict.set d k v)
  = if PyDict.mem d k then PyDict.keys d else PyDict.keys d ++ [k].
Proof.
  unfold PyDict.mem, PyDict.keys.
  induction d as [|[k' v'] d IH]; simpl; auto.
  destruct (String.eqb k' k) eqn:E; simpl; auto.
  rewrite IH. destruct (PyDict.get d k); auto.
Qed.

Lemma dict_mem_keys d k : PyDict.mem d k = true <-> In k (PyDict.keys d).
Proof.
  unfold PyDict.mem, PyDict.keys. induction d as [|[k' v'] d IH]; simpl.
  - split; [discriminate | tauto].
  - destruct (String.eqb k' k) eqn:E.
    + apply String.eqb_eq in E. subst. split; auto.
    + rewrite IH. apply String.eqb_neq in E.
      split; [auto | intros [H|H]; congruence].
Qed.

Lemma dict_In_keys_set d k v x :
  In x (PyDict.keys (PyDict.set d k v)) <-> x = k \/ In x (PyDict.keys d).
Proof.
  rewrite dict_keys_set. destruct (PyDict.mem d k) eqn:E.
  - apply dict_mem_keys in E. split; [auto | intros [->|H]; auto].
  - rewrite in_app_iff. simpl. split; intros H.
    + destruct H as [H|[H|[]]]; auto.
    + destruct H as [->|H]; auto.
Qed.

Lemma dict_NoDup_keys_set d k v :
  NoDup (PyDict.keys d) -> NoDup (PyDict.keys (PyDict.set d k v)).
Proof.
  intros Hnd. rewrite dict_keys_set. destruct (PyDict.mem d k) eqn:E; auto.
  apply NoDup_app; auto.
  - constructor; [intros [] | constructor].
  - intros x Hx [Hk|[]]. subst x. apply dict_mem_keys in Hx. congruence.
Qed.

Lemma dict_In_values_set d k v x :
  In x (PyDict.values (PyDict.set d k v)) -> x = v \/ In x (PyDict.values d).
Proof.
  unfold PyDict.values. induction d as [|[k' v'] d IH]; simpl.
  - intros [H|[]]; auto.
  - destruct (String.eqb k' k) eqn:E; simpl.
    + intros [H|H]; auto.
    + intros [H|H]; auto. destruct (IH H); auto.
Qed.

Lemma dict_get_In_values d k v :
  PyDict.get d k = Some v -> In v (PyDict.values d).
Proof.
  unfold PyDict.values. induction d as [|[k' v'] d IH]; simpl; [discriminate|].
  destruct (String.eqb k' k); [intros [= ->]; auto | auto].
Qed.


End DictFacts.

(** ** The data store *)

Section StoreFacts.
Import DataStore.
Variable fs : FileSystem.

(** *** [load_layer] *)

Lemma load_layer_hit self io layer_name layer frame :
  PyDict.get (layers self) layer_name = Some layer ->
  gdf layer = Some frame ->
  load_layer fs self io layer_name = (Some frame, self, io).
Proof.
  intros Hget Hgdf. unfold load_layer. now rewrite Hget, Hgdf.
Qed.

(** What [load_layer] does on an entry that holds no frame. *)
Lemma load_layer_miss self io layer_name layer :
  PyDict.get (layers self) layer_name = Some layer ->
  gdf layer = None ->
  load_layer fs self io layer_name =
  match read_file fs (path layer) with
  | None => (None, self, log_read io (path layer))
  | Some data =>
      let frame := {| gdf_id := next_id io; gdf_data := data |} in
      let self' :=
        with_layers self
          (PyDict.set (layers self) layer_name (set_loaded layer frame)) in
      (Some frame, self',
       _notify_observers self'
         {| next_id := S (next_id io); read_log := read_log io ++ [path layer];
            clock := clock io; notified := notified io |}
         (layer_loaded layer_name frame))
  end.
Proof.
  intros Hget Hgdf. unfold load_layer. rewrite Hget, Hgdf.
  destruct (read_file fs (path layer)); reflexivity.
Qed.

(** A frame [load_layer] returns is the one the entry holds afterwards. *)
Lemma load_layer_returns_cached self io layer_name frame self' io' :
  load_layer fs self io layer_name = (Some frame, self', io') ->
  exists layer,
    PyDict.get (layers self') layer_name = Some layer /\ gdf layer = Some frame.
Proof.
  unfold load_layer.
  destruct (PyDict.get (layers self) layer_name) as [layer|] eqn:Hget;
    [|discriminate].
  destruct (gdf layer) as [cached|] eqn:Hgdf.
  - intros [= <- <- <-]. eauto.
  - destruct (read_file fs (path layer)) as [data|]; [|discriminate].
    intros [= <- <- <-]. eexists. split.
    + simpl. apply dict_get_set_same.
    + reflexivity.
Qed.

(** X24. Two calls of [load_layer] in a row: when the first returns a
    frame, the second returns the same frame and changes neither the
    store nor the world. *)
Lemma load_layer_twice self io layer_name frame self' io' :
  load_layer fs self io layer_name = (Some frame, self', io') ->
  load_layer fs self' io' layer_name = (Some frame, self', io').
Proof.
  intros H. destruct (load_layer_returns_cached _ _ _ _ _ _ H) as (layer & Hget & Hgdf).
  eapply load_layer_hit; eauto.
Qed.

(** C6. [load_layer] on an entry that already holds a frame returns that
    very frame (same identity, same contents), leaves the store as it
    is, and reads nothing: the log of [gpd.read_file] calls and the rest
    of the world are unchanged. *)
Theorem load_layer_idempotent self io layer_name layer frame :
  PyDict.get (layers self) layer_name = Some layer ->
  gdf layer = Some frame ->
  load_layer fs self io layer_name = (Some frame, self, io)
  /\ read_log (snd (load_layer fs self io layer_name)) = read_log io.
Proof.
  intros Hget Hgdf.
  rewrite (load_layer_hit self io layer_name layer frame Hget Hgdf). auto.
Qed.

(** C9. [load_layer] on a name that is not a key of [self.layers] returns
    [None] and leaves the store and the world as they are. *)
Theorem load_layer_unknown_name self io layer_name :
  PyDict.mem (layers self) layer_name = false ->
  load_layer fs self io layer_name = (None, self, io).
Proof.
  unfold PyDict.mem, load_layer.
  destruct (PyDict.get (layers self) layer_name); [discriminate | reflexivity].
Qed.

(** C8, as the code has it. On an entry that holds no frame: when the
    file fails to parse, [load_layer] returns [None] and leaves the store
    unchanged (the entry keeps [loaded = False] and no frame; only the
    read attempt is logged); when it parses, [load_layer] returns a new
    frame with the parsed contents, and the entry afterwards holds that
    frame with [loaded = True], its other fields unchanged. *)
Theorem load_layer_outcomes self io layer_name layer :
  PyDict.get (layers self) layer_name = Some layer ->
  gdf layer = None ->
  (read_file fs (path layer) = None ->
     load_layer fs self io layer_name = (None, self, log_read io (path layer)))
  /\
  (forall data, read_file fs (path layer) = Some data ->
     exists frame self' io',
       load_layer fs self io layer_name = (Some frame, self', io')
       /\ gdf_data frame = data
       /\ gdf_id frame = next_id io
       /\ PyDict.get (layers self') layer_name = Some (set_loaded layer frame)
       /\ loaded (set_loaded layer frame) = true
       /\ gdf (set_loaded layer frame) = Some frame).
Proof.
  intros Hget Hgdf. rewrite (load_layer_miss self io layer_name layer Hget Hgdf).
  split.
  - intros ->. reflexivity.
  - intros data ->. cbv zeta. do 3 eexists. split; [reflexivity|].
    simpl. repeat split. apply dict_get_set_same.
Qed.

End StoreFacts.

Section StoreInvariant.
Import DataStore Terms.
Variable fs : FileSystem.

(** *** What the scans produce *)

Lemma analyze_layer_entry io file :
  name (fst (_analyze_layer fs io file)) = stem file
  /\ path (fst (_analyze_layer fs io file)) = file
  /\ loaded (fst (_analyze_layer fs io file)) = false
  /\ gdf (fst (_analyze_layer fs io file)) = None.
Proof.
  unfold _analyze_layer.
  destruct (read_file fs file) as [head|]; [|now cbn].
  destruct (fd_has_geometry head),
    (String.eqb (str_lower fs (suffix file)) ".shp");
    try destruct (fiona_len fs file); now cbn.
Qed.

Lemma analyze_layer_next_id io file :
  next_id (snd (_analyze_layer fs io file)) = next_id io.
Proof.
  unfold _analyze_layer.
  destruct (read_file fs file) as [head|]; [|now cbn].
  destruct (fd_has_geometry head),
    (String.eqb (str_lower fs (suffix file)) ".shp");
    try destruct (fiona_len fs file); now cbn.
Qed.

Lemma contains_In xs x : contains xs x = true <-> In x xs.
Proof.
  unfold contains. rewrite existsb_exists. split.
  - intros (y & Hy & E). apply String.eqb_eq in E. now subst.
  - intros H. exists x. split; auto. apply String.eqb_refl.
Qed.

(** One turn of [_scan_layers], by cases. *)
Lemma scan_layers_step_cases processed lyrs io file :
  (is_layer_file fs file = false
   /\ _scan_layers_step fs (processed, lyrs, io) file = (processed, lyrs, io))
  \/ (is_layer_file fs file = true
      /\ str_lower fs (suffix file) = ".shp" /\ In (stem file) processed
      /\ _scan_layers_step fs (processed, lyrs, io) file = (processed, lyrs, io))
  \/ (is_layer_file fs file = true
      /\ (str_lower fs (suffix file) = ".shp" -> ~ In (stem file) processed)
      /\ exists processed',
          (forall x, In x processed' -> x = stem file \/ In x processed)
          /\ (forall x, In x processed -> In x processed')
          /\ (str_lower fs (suffix file) = ".shp" -> In (stem file) processed')
          /\ _scan_layers_step fs (processed, lyrs, io) file
             = (processed',
                PyDict.set lyrs (stem file) (fst (_analyze_layer fs io file)),
                snd (_analyze_layer fs io file))).
Proof.
  unfold _scan_layers_step, is_layer_file.
  destruct (contains LAYER_EXTENSIONS (str_lower fs (suffix file))) eqn:Hl; [|auto].
  right.
  pose proof (analyze_layer_entry io file) as (Hname & _).
  destruct (String.eqb (str_lower fs (suffix file)) ".shp") eqn:Hshp.
  - apply String.eqb_eq in Hshp.
    destruct (contains processed (stem file)) eqn:Hp.
    + left. apply contains_In in Hp. auto.
    + right. split; auto. split.
      * intros _ Hin. apply contains_In in Hin. congruence.
      * exists (stem file :: processed).
        destruct (_analyze_layer fs io file) as [info io'] eqn:Ha.
        simpl in *. rewrite Hname.
        repeat split; auto. intros x [H|H]; auto.
  - right. apply String.eqb_neq in Hshp. split; auto. split; [tauto|].
    exists processed.
    destruct (_analyze_layer fs io file) as [info io'] eqn:Ha.
    simpl in *. rewrite Hname. repeat split; auto. tauto.
Qed.

(** The keys after [_scan_layers]: those before and the base names of the
    layer files, each once. *)
Lemma scan_layers_fold_keys files : forall processed lyrs io,
  (forall x, In x processed -> In x (PyDict.keys lyrs)) ->
  let lyrs' := snd (fst (fold_left (_scan_layers_step fs) files (processed, lyrs, io))) in
  (forall x, In x (PyDict.keys lyrs') <->
             In x (PyDict.keys lyrs)
             \/ In x (map stem (filter (is_layer_file fs) files)))
  /\ (NoDup (PyDict.keys lyrs) -> NoDup (PyDict.keys lyrs')).
Proof.
  induction files as [|file files IH]; intros processed lyrs io Hsub;
    cbn [fold_left filter].
  - split; [intros x; simpl; tauto | auto].
  - destruct (scan_layers_step_cases processed lyrs io file)
      as [(Hl & ->) | [(Hl & Hshp & Hin & ->) | (Hl & _ & processed' & Hp1 & _ & _ & ->)]];
      rewrite Hl.
    + apply IH, Hsub.
    + destruct (IH processed lyrs io Hsub) as [Hk Hnd]. split; auto.
      intros x. rewrite Hk. simpl. intuition. subst. auto.
    + match goal with
      | |- context [fold_left _ files (processed', ?l, ?i)] =>
          destruct (IH processed' l i) as [Hk Hnd]
      end.
      * intros x Hx. apply dict_In_keys_set. destruct (Hp1 x Hx); auto.
      * split.
        -- intros x. rewrite Hk, dict_In_keys_set. simpl. intuition.
        -- intros H. apply Hnd, dict_NoDup_keys_set, H.
Qed.




(** Every entry [_scan_layers] adds holds no frame. *)
Lemma scan_layers_fold_values (P : LayerInfo -> Prop) files :
  (forall io file, P (fst (_analyze_layer fs io file))) ->
  forall processed lyrs io,
  Forall P (PyDict.values lyrs) ->
  Forall P (PyDict.values
              (snd (fst (fold_left (_scan_layers_step fs) files (processed, lyrs, io))))).
Proof.
  intros HP. induction files as [|file files IH]; intros processed lyrs io Hall;
    cbn [fold_left]; auto.
  destruct (scan_layers_step_cases processed lyrs io file)
    as [(_ & ->) | [(_ & _ & _ & ->) | (_ & _ & processed' & _ & _ & _ & ->)]];
    auto.
  apply IH. apply Forall_forall. intros x Hx.
  apply dict_In_values_set in Hx. destruct Hx as [->|Hx]; auto.
  rewrite Forall_forall in Hall. auto.
Qed.

Lemma scan_layers_fold_next_id files : forall processed lyrs io,
  next_id (snd (fold_left (_scan_layers_step fs) files (processed, lyrs, io)))
  = next_id io.
Proof.
  induction files as [|file files IH]; intros processed lyrs io;
    cbn [fold_left]; auto.
  destruct (scan_layers_step_cases processed lyrs io file)
    as [(_ & ->) | [(_ & _ & _ & ->) | (_ & _ & processed' & _ & _ & _ & ->)]];
    auto.
  rewrite IH. apply analyze_layer_next_id.
Qed.

(** *** [connect] *)

(** The scans leave the clock alone, and tell the observers nothing. *)
Lemma analyze_layer_world io file :
  clock (snd (_analyze_layer fs io file)) = clock io
  /\ notified (snd (_analyze_layer fs io file)) = notified io.
Proof.
  unfold _analyze_layer.
  destruct (read_file fs file) as [head|]; [|now cbn].
  destruct (fd_has_geometry head),
    (String.eqb (str_lower fs (suffix file)) ".shp");
    try destruct (fiona_len fs file); now cbn.
Qed.

Lemma scan_layers_fold_world files : forall processed lyrs io,
  clock (snd (fold_left (_scan_layers_step fs) files (processed, lyrs, io)))
  = clock io
  /\ notified (snd (fold_left (_scan_layers_step fs) files (processed, lyrs, io)))
     = notified io.
Proof.
  induction files as [|file files IH]; intros processed lyrs io;
    cbn [fold_left]; auto.
  destruct (scan_layers_step_cases processed lyrs io file)
    as [(_ & ->) | [(_ & _ & _ & ->) | (_ & _ & processed' & _ & _ & _ & ->)]];
    auto.
  destruct (analyze_layer_world io file) as [Hn Ht].
  match goal with
  | |- context [fold_left _ files (?p, ?l, ?i)] =>
      destruct (IH p l i) as [IH1 IH2]
  end.
  rewrite IH1, IH2. auto.
Qed.

(** [connect] on an existing folder, unfolded. The time of the scan is
    read once, after the scan. *)
Lemma connect_existing self io folder :
  fs_exists fs (Path_of folder) = true ->
  let root := Path_of folder in
  let scanned :=
    fold_left (_scan_layers_step fs)
      (fs_rglob fs (subfolder_or_root fs root "capas")) ([], [], io) in
  let lyrs := snd (fst scanned) in
  let io1 := snd scanned in
  let docs := _scan_documents fs [] (subfolder_or_root fs root "documentos") in
  let mps := _scan_maps fs [] (subfolder_or_root fs root "mapas") in
  let summary :=
    {| capas := PyDict.len lyrs; documentos := PyDict.len docs;
       mapas := PyDict.len mps |} in
  let self' :=
    {| root_path := Some root; layers := lyrs; documents := docs; maps := mps;
       is_connected := true; last_scan := Some (clock io 0);
       _observers := _observers self |} in
  connect fs self io folder
  = (connect_ok summary (clock io 0), self',
     _notify_observers self' (snd (datetime_now io1)) (connected summary)).
Proof.
  intros Hex. unfold connect. rewrite Hex. cbn [negb].
  unfold _scan_folder, _scan_layers. cbn [layers documents maps root_path
    is_connected last_scan _observers].
  pose proof (scan_layers_fold_world
                (fs_rglob fs (subfolder_or_root fs (Path_of folder) "capas"))
                [] [] io) as [Hclock _].
  destruct (fold_left (_scan_layers_step fs) _ _) as [[processed lyrs] io1].
  cbn [snd] in Hclock. unfold datetime_now. cbn [fst snd]. rewrite Hclock.
  reflexivity.
Qed.

(** *** The files [_scan_layers] reads *)






(** C7. [connect] on an existing folder replaces the entries: the three
    dictionaries afterwards are what the scans produce from empty
    dictionaries, whatever the store held before; no entry holds a frame
    or has the flag [loaded]; no frame is created; and [load_layer] on
    an entry afterwards reads the file of the entry again, the frame it
    returns being a new object. *)
Theorem connect_replaces_entries self io folder :
  fs_exists fs (Path_of folder) = true ->
  exists summary timestamp self' io',
    connect fs self io folder = (connect_ok summary timestamp, self', io')
    /\ layers self'
       = fst (_scan_layers fs [] io (subfolder_or_root fs (Path_of folder) "capas"))
    /\ documents self'
       = _scan_documents fs [] (subfolder_or_root fs (Path_of folder) "documentos")
    /\ maps self' = _scan_maps fs [] (subfolder_or_root fs (Path_of folder) "mapas")
    /\ next_id io' = next_id io
    /\ (forall k layer,
          PyDict.get (layers self') k = Some layer ->
          gdf layer = None /\ loaded layer = false
          /\ fst (fst (load_layer fs self' io' k))
             = option_map
                 (fun data => {| gdf_id := next_id io'; gdf_data := data |})
                 (read_file fs (path layer))
          /\ read_log (snd (load_layer fs self' io' k))
             = read_log io' ++ [path layer]).
Proof.
  intros Hex. rewrite (connect_existing self io folder Hex). cbv zeta.
  do 4 eexists. split; [reflexivity|].
  cbn [layers documents maps].
  split; [|split; [reflexivity|split; [reflexivity|split]]].
  - unfold _scan_layers.
    destruct (fold_left (_scan_layers_step fs) _ _) as [[processed lyrs] io1].
    reflexivity.
  - cbn [_notify_observers datetime_now snd next_id].
    apply scan_layers_fold_next_id.
  - intros k layer Hget.
    assert (Hfresh : gdf layer = None /\ loaded layer = false).
    { assert (Hall : Forall (fun l => gdf l = None /\ loaded l = false)
                       (PyDict.values
                          (snd (fst (fold_left (_scan_layers_step fs)
                             (fs_rglob fs (subfolder_or_root fs (Path_of folder) "capas"))
                             ([], [], io)))))).
      { apply scan_layers_fold_values; [|constructor].
        intros io0 file.
        destruct (analyze_layer_entry io0 file) as (_ & _ & Hl & Hg). auto. }
      rewrite Forall_forall in Hall. apply Hall.
      eapply dict_get_In_values, Hget. }
    destruct Hfresh as [Hg Hl]. split; [auto|split; [auto|]].
    match goal with
    | |- context [load_layer fs ?s ?i k] =>
        rewrite (load_layer_miss fs s i k layer) by auto
    end.
    destruct (read_file fs (path layer)); cbn; auto.
Qed.

(** *** The flag [loaded] *)

Lemma consistent_forall self :
  consistent self <->
  forall layer, In layer (PyDict.values (layers self)) ->
                loaded layer = has_frame layer.
Proof.
  unfold consistent, flag_matches. rewrite forallb_forall.
  split; intros H layer Hin; specialize (H layer Hin).
  - now apply Bool.eqb_prop.
  - rewrite H. apply Bool.eqb_reflx.
Qed.

Lemma init_consistent : consistent __init__.
Proof. reflexivity. Qed.

Lemma connect_consistent self io root :
  consistent self -> consistent (snd (fst (connect fs self io root))).
Proof.
  intros Hc. destruct (fs_exists fs (Path_of root)) eqn:Hex.
  - rewrite (connect_existing self io root Hex). cbv zeta. cbn [fst snd].
    apply consistent_forall. cbn [layers].
    apply Forall_forall.
    apply scan_layers_fold_values; [|constructor].
    intros io0 file.
    destruct (analyze_layer_entry io0 file) as (_ & _ & Hl & Hg).
    unfold has_frame. now rewrite Hl, Hg.
  - unfold connect. now rewrite Hex.
Qed.

Lemma load_layer_consistent self io layer_name :
  consistent self -> consistent (snd (fst (load_layer fs self io layer_name))).
Proof.
  intros Hc. unfold load_layer.
  destruct (PyDict.get (layers self) layer_name) as [layer|]; auto.
  destruct (gdf layer) eqn:Hg; auto.
  destruct (read_file fs (path layer)); auto.
  cbn [fst snd]. apply consistent_forall. cbn [with_layers layers].
  intros l Hin. apply dict_In_values_set in Hin. destruct Hin as [->|Hin].
  - reflexivity.
  - apply (proj1 (consistent_forall self) Hc l Hin).
Qed.

Lemma load_all_layers_fold_consistent names : forall frames self io,
  consistent self ->
  consistent
    (snd (fst (fold_left
      (fun acc layer_name =>
         let '(loaded_frames, self1, io1) := acc in
         let '(got, self2, io2) := load_layer fs self1 io1 layer_name in
         match got with
         | Some frame => (PyDict.set loaded_frames layer_name frame, self2, io2)
         | None => (loaded_frames, self2, io2)
         end)
      names (frames, self, io)))).
Proof.
  induction names as [|n names IH]; intros frames self io Hc; cbn [fold_left]; auto.
  pose proof (load_layer_consistent self io n Hc) as Hc'.
  destruct (load_layer fs self io n) as [[got self2] io2].
  destruct got; apply IH; exact Hc'.
Qed.

(** C10. On a store where the flag [loaded] of every layer says whether
    the entry holds a frame, the same is true after [connect], after
    [load_layer] and after [load_all_layers]; and the number of loaded
    layers [get_summary] reports is the number of entries that hold a
    frame. *)
Theorem loaded_flag_consistent self :
  consistent self ->
  (forall io root, consistent (snd (fst (connect fs self io root))))
  /\ (forall io layer_name,
        consistent (snd (fst (load_layer fs self io layer_name))))
  /\ (forall io, consistent (snd (fst (load_all_layers fs self io))))
  /\ capas_cargadas (get_summary self)
     = length (filter has_frame (PyDict.values (layers self))).
Proof.
  intros Hc. split; [|split; [|split]].
  - intros. now apply connect_consistent.
  - intros. now apply load_layer_consistent.
  - intros. unfold load_all_layers. now apply load_all_layers_fold_consistent.
  - cbn [get_summary capas_cargadas]. f_equal.
    apply filter_ext_in. intros l Hin.
    apply (proj1 (consistent_forall self) Hc l Hin).
Qed.

End StoreInvariant.

(** *** The sample knowledge base *)

Section StoreSamples.
Import DataStore Terms Sample.

Lemma load_layer_idempotent_witness :
  load_layer kb loaded_store loaded_io "rios"
  = (Some rios_frame, loaded_store, loaded_io)
  /\ read_log (snd (load_layer kb loaded_store loaded_io "rios"))
     = read_log loaded_io.
Proof.
  eapply (load_layer_idempotent kb loaded_store loaded_io "rios"
            (set_loaded
               (fst (_analyze_layer kb io0 "/kb/capas/rios.shp")) rios_frame)
            rios_frame);
    reflexivity.
Defined.

Lemma load_layer_unknown_name_witness :
  PyDict.mem (layers connected_store) "lagos" = false
  /\ load_layer kb connected_store connected_io "lagos"
     = (None, connected_store, connected_io).
Proof.
  split; [reflexivity|].
  apply (load_layer_unknown_name kb connected_store connected_io "lagos").
  reflexivity.
Defined.

Lemma load_layer_outcomes_witness :
  load_layer kb connected_store connected_io "vias"
  = (None, connected_store, log_read connected_io "/kb/capas/vias.geojson").
Proof.
  apply (proj1 (load_layer_outcomes kb connected_store connected_io "vias"
                  vias_entry eq_refl eq_refl)).
  reflexivity.
Defined.

(** C8 as stated fails on [vias], whose file does not parse: [load_layer]
    returns [None] and the entry afterwards is the entry before, so
    nothing read off the entry can have gone from not loaded to failed. *)
Lemma load_failure_leaves_no_mark :
  PyDict.get (layers connected_store) "vias" = Some vias_entry
  /\ read_file kb (path vias_entry) = None
  /\ fst (fst (load_layer kb connected_store connected_io "vias")) = None
  /\ PyDict.get
       (layers (snd (fst (load_layer kb connected_store connected_io "vias"))))
       "vias" = Some vias_entry
  /\ ~ (exists state_of : LayerInfo -> loadState,
          forall before after,
            PyDict.get (layers connected_store) "vias" = Some before ->
            PyDict.get
              (layers (snd (fst (load_layer kb connected_store connected_io "vias"))))
              "vias" = Some after ->
            state_of before = NotLoaded /\ state_of after = Failed).
Proof.
  repeat split; try reflexivity.
  intros (state_of & H).
  destruct (H vias_entry vias_entry eq_refl eq_refl) as [H1 H2]. congruence.
Qed.



Lemma connect_replaces_entries_witness :
  fs_exists kb "/kb" = true
  /\ PyDict.get (layers loaded_store) "rios"
     = Some (set_loaded (fst (_analyze_layer kb io0 "/kb/capas/rios.shp"))
               rios_frame)
  /\ exists summary timestamp self' io',
       connect kb loaded_store loaded_io "/kb"
       = (connect_ok summary timestamp, self', io')
       /\ layers self' = layers connected_store
       /\ fst (fst (load_layer kb self' io' "rios"))
          = Some {| gdf_id := 1; gdf_data := rios_data |}.
Proof.
  split; [reflexivity|]. split; [reflexivity|].
  destruct (connect_replaces_entries kb loaded_store loaded_io "/kb" eq_refl)
    as (summary & timestamp & self' & io' & Hconnect & Hl & _ & _ & Hid & Hload).
  exists summary, timestamp, self', io'. split; [exact Hconnect|].
  split; [rewrite Hl; reflexivity|].
  assert (Hget : PyDict.get (layers self') "rios"
                 = Some (fst (_analyze_layer kb io0 "/kb/capas/rios.shp")))
    by (rewrite Hl; reflexivity).
  destruct (Hload _ _ Hget) as (_ & _ & Hframe & _).
  rewrite Hframe, Hid. reflexivity.
Defined.

Lemma loaded_flag_consistent_witness :
  consistent loaded_store
  /\ consistent (snd (fst (connect kb loaded_store loaded_io "/kb")))
  /\ consistent (snd (fst (load_all_layers kb loaded_store loaded_io)))
  /\ capas_cargadas (get_summary loaded_store) = 1.
Proof.
  destruct (loaded_flag_consistent kb loaded_store eq_refl)
    as (Hconnect & _ & Hall & Hcount).
  split; [reflexivity|]. split; [apply Hconnect|]. split; [apply Hall|].
  rewrite Hcount. reflexivity.
Defined.

End StoreSamples.

(** ** The execution engine *)

Section EngineFacts.
Import Engine EngineTerms.

(** *** Validation *)

Lemma validate_code_rejects code :
  (exists pattern, In pattern FORBIDDEN_PATTERNS /\ re_search pattern code = true) ->
  exists pattern,
    In pattern FORBIDDEN_PATTERNS /\ re_search pattern code = true
    /\ validate_code code
       = (false, ("Operación no permitida detectada: " ++ pattern)%string).
Proof.
  intros (p & Hin & Hmatch). unfold validate_code.
  destruct (find (fun pattern => re_search pattern code) FORBIDDEN_PATTERNS)
    as [q|] eqn:Hfind.
  - apply find_some in Hfind. destruct Hfind as [Hq1 Hq2]. exists q. auto.
  - pose proof (find_none _ _ Hfind p Hin) as Hnone. simpl in Hnone. congruence.
Qed.

(** X19. When [validate_code] rejects a script, the pattern its message
    names is the first of the list found in the script: no pattern
    before it in the list is found. *)
Lemma validate_code_names_first code pattern :
  validate_code code
  = (false, ("Operación no permitida detectada: " ++ pattern)%string) ->
  exists before after,
    FORBIDDEN_PATTERNS = before ++ pattern :: after
    /\ re_search pattern code = true
    /\ Forall (fun p => re_search p code = false) before.
Proof.
  unfold validate_code.
  assert (Hfind : forall ps q,
            find (fun p => re_search p code) ps = Some q ->
            exists before after,
              ps = before ++ q :: after /\ re_search q code = true
              /\ Forall (fun p => re_search p code = false) before).
  { induction ps as [|p ps IH]; cbn [find]; [discriminate|].
    intros q. destruct (re_search p code) eqn:Hp.
    - intros [= <-]. exists [], ps. auto.
    - intros Hq. destruct (IH q Hq) as (before & after & -> & Hm & Hall).
      exists (p :: before), after. auto. }
  destruct (find (fun p => re_search p code) FORBIDDEN_PATTERNS) as [q|] eqn:E;
    [|discriminate].
  intros [= <-]. exact (Hfind _ _ E).
Qed.

Lemma validate_code_accepts code :
  fst (validate_code code) = true -> validate_code code = (true, "").
Proof.
  unfold validate_code.
  destruct (find (fun pattern => re_search pattern code) FORBIDDEN_PATTERNS);
    [discriminate | reflexivity].
Qed.

(** *** The search for maps *)


(** The search only adds to the maps found. *)
Lemma collect_maps_extends c bindings : forall found,
  exists more, snd (collect_maps c bindings found) = found ++ more.
Proof.
  induction bindings as [|[k v] rest IH]; intros found; cbn [collect_maps].
  - exists []. now rewrite app_nil_r.
  - destruct (isinstance_Map v c) as [[|]|ex].
    + destruct (negb (value_in v found)).
      * destruct (IH (found ++ [v])) as (more & ->).
        exists (v :: more). now rewrite <- app_assoc.
      * apply IH.
    + apply IH.
    + exists []. now rewrite app_nil_r.
Qed.

End EngineFacts.

Section ExecuteFacts.
Import Engine EngineTerms.
Variable python : interpreter.

(** [execute] past validation, with [folium] bound to the module. *)
Lemma execute_past_validation self w code :
  fst (validate_code code) = true ->
  PyDict.get (make_exec_globals self) "folium" = Some (VLib Folium) ->
  execute python self w code
  = finally_restore (folium_Map w)
      (except_Exception (try_body python code (start_state self w))).
Proof.
  intros Hv Hf. unfold execute.
  rewrite (validate_code_accepts code Hv). cbn [negb]. rewrite Hf. reflexivity.
Qed.

(** The body of the [try], from the run of the script on. *)
Lemma try_body_after_run self w code :
  try_body python code (start_state self w)
  = match after_run python self w code with
    | (Raised ex, st1) => (Raised ex, st1)
    | (Returned _, st1) =>
        let '(scanned, found) :=
          collect_maps (folium_Map (world st1)) (PyDict.items (globals st1))
            (generated_maps (engine st1)) in
        let st2 :=
          {| globals := globals st1; world := world st1;
             engine := with_generated_maps (engine st1) found;
             stdout := stdout st1 |} in
        match scanned with
        | Raised ex => (Raised ex, st2)
        | Returned _ =>
            (Returned
               {| success := true; error := None; output := stdout st2;
                  result := find_result (globals st1) RESULT_NAMES;
                  maps := generated_maps (engine st2);
                  figures := generated_figures (engine st2);
                  traceback := None;
                  variables := Some (variables_of (globals st2)) |},
             st2)
        end
    end.
Proof. reflexivity. Qed.


(** C1. When some deny pattern is found in the script, [execute]
    returns the dictionary with [success] false, the message that names
    a pattern of the list found in the script, an empty [output], no
    result and no maps; the engine and the shared world are as before;
    and the interpreter has no part in it, so the namespace is not built
    and the script is not run. *)
Theorem execute_policy_violation self w code :
  (exists pattern, In pattern FORBIDDEN_PATTERNS /\ re_search pattern code = true) ->
  exists pattern,
    In pattern FORBIDDEN_PATTERNS /\ re_search pattern code = true
    /\ execute python self w code
       = (Returned
            {| success := false;
               error := Some ("Operación no permitida detectada: " ++ pattern)%string;
               output := ""; result := VNone; maps := []; figures := [];
               traceback := None; variables := None |},
          self, w)
    /\ forall other : interpreter,
         execute other self w code = execute python self w code.
Proof.
  intros H. destruct (validate_code_rejects code H) as (p & Hin & Hm & Hv).
  exists p. repeat split; auto.
  - unfold execute. rewrite Hv. reflexivity.
  - intros other. unfold execute. rewrite Hv. reflexivity.
Qed.





(** *** What the success path computes *)

(** X23. The result [execute] looks for is the value of the first
    candidate name bound to something other than [None]: every name
    before it is unbound or bound to [None]; and it is [None] when every
    candidate is unbound or bound to [None]. *)
Lemma find_result_first g names :
  (find_result g names = VNone /\ Forall (unset g) names)
  \/ (exists before x after,
        names = before ++ x :: after
        /\ Forall (unset g) before
        /\ PyDict.get g x = Some (find_result g names)
        /\ find_result g names <> VNone).
Proof.
  induction names as [|x names IH]; cbn [find_result].
  - left. auto.
  - destruct (PyDict.get g x) as [v|] eqn:Hx.
    + destruct v;
        try (right; exists [], x, names; repeat split; auto; discriminate).
      destruct IH as [[Hn Hall]|(before & y & after & -> & Hb & Hy & Hne)].
      * left. split; auto. constructor; auto. now right.
      * right. exists (x :: before), y, after. repeat split; auto.
        constructor; auto. now right.
    + destruct IH as [[Hn Hall]|(before & y & after & -> & Hb & Hy & Hne)].
      * left. split; auto. constructor; auto. now left.
      * right. exists (x :: before), y, after. repeat split; auto.
        constructor; auto. now left.
Qed.

(** With the class as [folium.Map], the search for maps does not raise
    and adds the maps of the namespace not yet captured. *)
Lemma collect_maps_class bindings : forall found,
  collect_maps MapClass bindings found
  = (Returned tt, with_namespace_maps bindings found).
Proof.
  unfold with_namespace_maps.
  induction bindings as [|[k v] rest IH]; intros found;
    cbn [collect_maps fold_left isinstance_Map snd]; auto.
  destruct v as [| | |id [| |]| | | |]; cbn [is_map andb]; auto.
  destruct (value_in (VObj id KMap) found); cbn [negb]; auto.
Qed.

(** X22. The closure [capture_map] around the class records the maps in
    the order they are built: after a run of assignments
    [x = folium.Map()], [self.generated_maps] has grown by the new maps,
    in order, each a new object. *)
Lemma capture_in_construction_order b names : forall st,
  PyDict.get (globals st) "folium" = Some (VLib Folium) ->
  folium_Map (world st) = CaptureMap MapClass ->
  forallb (fun x => negb (String.eqb x "folium")) names = true ->
  exists st',
    exec_code b (map (fun x => SAssign x NewMap) names) st = (Returned tt, st')
    /\ generated_maps (engine st')
       = generated_maps (engine st)
         ++ map (fun id => VObj id KMap) (seq (next_id (world st)) (length names))
    /\ next_id (world st') = next_id (world st) + length names.
Proof.
  induction names as [|x names IH]; intros st Hf Hc Hn;
    cbn [map exec_code length seq].
  - exists st. rewrite app_nil_r, Nat.add_0_r. auto.
  - cbn [forallb] in Hn. apply andb_true_iff in Hn. destruct Hn as [Hx Hn].
    apply negb_true_iff, String.eqb_neq in Hx.
    cbn [exec_stmt eval]. unfold lookup_name. rewrite Hf.
    cbn [getattr_Map]. rewrite Hc. cbn [call_ctor with_globals globals].
    match goal with
    | |- context [exec_code b _ ?s] => destruct (IH s) as (st' & Hrun & Hmaps & Hid)
    end.
    + cbn. rewrite dict_get_set_other; auto.
    + cbn. exact Hc.
    + exact Hn.
    + exists st'. rewrite Hrun. split; auto.
      rewrite Hmaps, Hid. cbn. rewrite <- app_assoc. split; [reflexivity|lia].
Qed.

End ExecuteFacts.

(** *** The sample scripts *)

Section EngineSamples.
Import Engine EngineTerms SampleScripts.

(** [import], a no-break space (U+00A0), [os]. *)
Lemma execute_policy_violation_witness :
  re_search "import\s+os" (of_string "import" ++ [160%N] ++ of_string "os") = true
  /\ exists pattern,
       In pattern FORBIDDEN_PATTERNS
       /\ re_search pattern (of_string "import" ++ [160%N] ++ of_string "os") = true
       /\ execute python engine0 w0 (of_string "import" ++ [160%N] ++ of_string "os")
          = (Returned
               {| success := false;
                  error := Some ("Operación no permitida detectada: " ++ pattern)%string;
                  output := ""; result := VNone; maps := []; figures := [];
                  traceback := None; variables := None |},
             engine0, w0)
       /\ forall other : interpreter,
            execute other engine0 w0 (of_string "import" ++ [160%N] ++ of_string "os")
            = execute python engine0 w0
                (of_string "import" ++ [160%N] ++ of_string "os").
Proof.
  split; [reflexivity|].
  apply (execute_policy_violation python engine0 w0
           (of_string "import" ++ [160%N] ++ of_string "os")).
  exists "import\s+os". split; [simpl; auto | reflexivity].
Defined.

(** C2 fails on the script [folium = None]. It passes validation and
    runs to its end; the search for maps raises, which is caught; then
    the [finally] clause looks the module up in the namespace of the
    script, finds [None] and raises [AttributeError]. [execute] raises,
    and [folium.Map] is left as the closure [capture_map]. The next call,
    on a script that builds one map, finds the closure as the
    constructor: the map is captured twice, and the closure is what that
    call puts back. *)
Theorem execute_leaves_capture_map :
  fst (validate_code (of_string "folium = None")) = true
  /\ folium_Map w0 = MapClass
  /\ execute python engine0 w0 (of_string "folium = None")
     = (Raised (no_Map_attribute VNone),
        {| layers := layers engine0; results := []; generated_maps := [];
           generated_figures := [] |},
        {| folium_Map := CaptureMap MapClass; Map_attr := []; next_id := 1 |})
  /\ folium_Map (snd (execute python engine0 w0 (of_string "folium = None")))
     <> folium_Map w0
  /\ (let '(_, engine1, w1) :=
        execute python engine0 w0 (of_string "folium = None") in
      generated_maps
        (snd (fst (execute python engine1 w1 (of_string "mapa = folium.Map()"))))
      = [VObj 1 KMap; VObj 1 KMap]
      /\ folium_Map (snd (execute python engine1 w1 (of_string "mapa = folium.Map()")))
         = CaptureMap MapClass).
Proof.
  repeat split; try reflexivity. vm_compute. discriminate.
Qed.

(** C3 fails on a script that builds two maps and binds the first to
    [resultado]. The run captures both maps in [self.generated_maps],
    in the order they were built; then the search for maps in the
    namespace calls [isinstance] with the closure [capture_map] as the
    class, which raises [TypeError]; [execute] returns the failure
    dictionary, with no result and no maps. *)
Theorem execute_two_maps_type_error :
  fst (validate_code
         (of_string "resultado = folium.Map(); detalle = folium.Map()")) = true
  /\ after_run python engine0 w0
       (of_string "resultado = folium.Map(); detalle = folium.Map()")
     = (Returned tt,
        {| globals :=
             make_exec_globals engine0
             ++ [("resultado", VObj 1 KMap); ("detalle", VObj 2 KMap)];
           world := {| folium_Map := CaptureMap MapClass; Map_attr := [];
                       next_id := 3 |};
           engine := {| layers := layers engine0; results := [];
                        generated_maps := [VObj 1 KMap; VObj 2 KMap];
                        generated_figures := [] |};
           stdout := "" |})
  /\ execute python engine0 w0
       (of_string "resultado = folium.Map(); detalle = folium.Map()")
     = (Returned
          {| success := false;
             error := Some "TypeError: isinstance() arg 2 must be a type, a tuple of types, or a union";
             output := ""; result := VNone; maps := []; figures := [];
             traceback := Some (exc_trace isinstance_arg2);
             variables := None |},
        {| layers := layers engine0; results := [];
           generated_maps := [VObj 1 KMap; VObj 2 KMap];
           generated_figures := [] |},
        {| folium_Map := MapClass; Map_attr := []; next_id := 3 |}).
Proof.
  repeat split; reflexivity.
Qed.


(** The success path is reached when [folium.Map] is the class during
    the search for maps, as when a layer named [folium] shadows the
    module in the namespace (the closure is then set on the layer, not
    on the module): the result is the map bound to [resultado] and the
    maps are the two maps built, in order. *)
Lemma execute_succeeds_when_layer_shadows_folium :
  execute python (__init__ [("folium", VObj 0 KGeoDataFrame)]) w0
    (of_string "resultado = folium.Map(); detalle = folium.Map()")
  = (Returned
       {| success := true; error := None; output := "";
          result := VObj 1 KMap; maps := [VObj 1 KMap; VObj 2 KMap];
          figures := []; traceback := None;
          variables :=
            Some [("layers", "dict"); ("capas", "dict");
                  ("resultado", "Map"); ("detalle", "Map")] |},
     {| layers := [("folium", VObj 0 KGeoDataFrame)]; results := [];
        generated_maps := [VObj 1 KMap; VObj 2 KMap];
        generated_figures := [] |},
     {| folium_Map := MapClass;
        Map_attr := [(VObj 0 KGeoDataFrame, MapClass)]; next_id := 3 |}).
Proof. reflexivity. Qed.


End EngineSamples.

(** * Further properties of the data store *)

Section MoreDictFacts.
Variable V : Type.
Implicit Types (d : PyDict.dict V) (k : string) (v : V).

Lemma dict_In_set d k v kv :
  In kv (PyDict.set d k v) -> kv = (k, v) \/ In kv d.
Proof.
  induction d as [|[k' v'] d IH]; simpl.
  - intros [H|[]]; auto.
  - destruct (String.eqb k' k) eqn:E; simpl.
    + apply String.eqb_eq in E. subst. intros [H|H]; auto.
    + intros [H|H]; auto. destruct (IH H); auto.
Qed.

Lemma dict_get_In d k v : PyDict.get d k = Some v -> In (k, v) d.
Proof.
  induction d as [|[k' v'] d IH]; simpl; [discriminate|].
  destruct (String.eqb k' k) eqn:E.
  - apply String.eqb_eq in E. intros [= ->]. subst. auto.
  - auto.
Qed.

Lemma dict_In_get d k v :
  NoDup (PyDict.keys d) -> In (k, v) d -> PyDict.get d k = Some v.
Proof.
  unfold PyDict.keys. induction d as [|[k' v'] d IH]; simpl; [tauto|].
  intros Hnd [H|H].
  - injection H as -> ->. now rewrite String.eqb_refl.
  - inversion Hnd as [|? ? Hnotin Hnd']; subst.
    destruct (String.eqb k' k) eqn:E; auto.
    apply String.eqb_eq in E. subst k'. exfalso. apply Hnotin.
    change k with (fst (k, v)). now apply in_map.
Qed.

Lemma dict_keys_set_mem d k v :
  PyDict.mem d k = true -> PyDict.keys (PyDict.set d k v) = PyDict.keys d.
Proof. intros H. now rewrite dict_keys_set, H. Qed.

Lemma dict_get_mem d k v : PyDict.get d k = Some v -> PyDict.mem d k = true.
Proof. unfold PyDict.mem. now intros ->. Qed.

Lemma dict_get_None_keys d k :
  PyDict.get d k = None <-> ~ In k (PyDict.keys d).
Proof.
  rewrite <- dict_mem_keys. unfold PyDict.mem.
  destruct (PyDict.get d k); split; try congruence; intros H; exfalso; auto.
Qed.

End MoreDictFacts.

Section StoreSteps.
Import DataStore Terms.
Variable fs : FileSystem.

(** The four ways [load_layer] goes. *)
Lemma load_layer_cases self io layer_name :
  (PyDict.get (layers self) layer_name = None
   /\ load_layer fs self io layer_name = (None, self, io))
  \/ (exists layer frame,
        PyDict.get (layers self) layer_name = Some layer
        /\ gdf layer = Some frame
        /\ load_layer fs self io layer_name = (Some frame, self, io))
  \/ (exists layer,
        PyDict.get (layers self) layer_name = Some layer
        /\ gdf layer = None /\ read_file fs (path layer) = None
        /\ load_layer fs self io layer_name
           = (None, self, log_read io (path layer)))
  \/ (exists layer data,
        PyDict.get (layers self) layer_name = Some layer
        /\ gdf layer = None /\ read_file fs (path layer) = Some data
        /\ let frame := {| gdf_id := next_id io; gdf_data := data |} in
           let self' :=
             with_layers self
               (PyDict.set (layers self) layer_name (set_loaded layer frame)) in
           load_layer fs self io layer_name
           = (Some frame, self',
              _notify_observers self'
                {| next_id := S (next_id io);
                   read_log := read_log io ++ [path layer];
                   clock := clock io; notified := notified io |}
                (layer_loaded layer_name frame))).
Proof.
  destruct (PyDict.get (layers self) layer_name) as [layer|] eqn:Hget.
  - destruct (gdf layer) as [frame|] eqn:Hgdf.
    + right. left. exists layer, frame. repeat split; auto.
      now apply load_layer_hit with (layer := layer).
    + rewrite (load_layer_miss fs self io layer_name layer Hget Hgdf).
      destruct (read_file fs (path layer)) as [data|] eqn:Hread.
      * right. right. right. exists layer, data. repeat split; auto.
      * right. right. left. exists layer. repeat split; auto.
  - left. split; auto. unfold load_layer. now rewrite Hget.
Qed.

(** What holds before and after every [load_layer] holds before and
    after [load_all_layers]. *)
Lemma load_all_layers_fold_inv (P : GeoDataStore -> IO -> Prop) :
  (forall self io layer_name,
     P self io ->
     P (snd (fst (load_layer fs self io layer_name)))
       (snd (load_layer fs self io layer_name))) ->
  forall names frames self io,
  P self io ->
  let final :=
    fold_left
      (fun acc layer_name =>
         let '(loaded_frames, self1, io1) := acc in
         let '(got, self2, io2) := load_layer fs self1 io1 layer_name in
         match got with
         | Some frame => (PyDict.set loaded_frames layer_name frame, self2, io2)
         | None => (loaded_frames, self2, io2)
         end)
      names (frames, self, io) in
  P (snd (fst final)) (snd final).
Proof.
  intros Hstep names. induction names as [|n names IH]; intros frames self io HP;
    cbn [fold_left]; auto.
  pose proof (Hstep self io n HP) as HP'.
  destruct (load_layer fs self io n) as [[got self2] io2].
  destruct got; apply IH; exact HP'.
Qed.

Lemma analyze_layer_format io file :
  format (fst (_analyze_layer fs io file)) = remove_dots (str_lower fs (suffix file)).
Proof.
  unfold _analyze_layer.
  destruct (read_file fs file) as [head|]; [|now cbn].
  destruct (fd_has_geometry head),
    (String.eqb (str_lower fs (suffix file)) ".shp");
    try destruct (fiona_len fs file); now cbn.
Qed.

(** What holds of the entries [_analyze_layer] makes holds of every
    entry [_scan_layers] adds, under the base name of its file. *)
Lemma scan_layers_fold_items (P : string -> LayerInfo -> Prop) files :
  (forall io file, is_layer_file fs file = true ->
                   P (stem file) (fst (_analyze_layer fs io file))) ->
  forall processed (lyrs : PyDict.dict LayerInfo) io,
  (forall k layer, In (k, layer) lyrs -> P k layer) ->
  forall k layer,
    In (k, layer)
       (snd (fst (fold_left (_scan_layers_step fs) files (processed, lyrs, io)))) ->
    P k layer.
Proof.
  intros HP. induction files as [|file files IH]; intros processed lyrs io Hall;
    cbn [fold_left]; auto.
  intros k0 layer0.
  destruct (scan_layers_step_cases fs processed lyrs io file)
    as [(_ & ->) | [(_ & _ & _ & ->) | (Hl & _ & processed' & _ & _ & _ & ->)]];
    try (apply IH; exact Hall).
  apply IH. intros k layer Hin. apply dict_In_set in Hin.
  destruct Hin as [[= -> ->]|Hin]; auto.
Qed.

(** *** The layers of a reachable store *)

Lemma layers_wf_init io : layers_wf fs __init__ io.
Proof.
  split; cbn; try (intros; contradiction). constructor.
Qed.

Lemma layers_wf_connect self io root :
  layers_wf fs self io ->
  layers_wf fs (snd (fst (connect fs self io root))) (snd (connect fs self io root)).
Proof.
  intros Hwf. destruct (fs_exists fs (Path_of root)) eqn:Hex.
  2:{ unfold connect. rewrite Hex. exact Hwf. }
  rewrite (connect_existing fs self io root Hex). cbv zeta. cbn [fst snd].
  set (files := fs_rglob fs (subfolder_or_root fs (Path_of root) "capas")).
  assert (Hnone : forall k layer,
            In (k, layer)
               (snd (fst (fold_left (_scan_layers_step fs) files ([], [], io)))) ->
            gdf layer = None).
  { apply scan_layers_fold_items; [|intros ? ? []].
    intros io0 file _. now destruct (analyze_layer_entry fs io0 file) as (_ & _ & _ & H). }
  split; cbn [layers].
  - destruct (scan_layers_fold_keys fs files [] [] io) as [_ Hnd]; [intros x []|].
    apply Hnd. constructor.
  - apply scan_layers_fold_items; [|intros ? ? []].
    intros io0 file Hl.
    destruct (analyze_layer_entry fs io0 file) as (Hn & Hp & _).
    rewrite Hn, Hp, analyze_layer_format. auto.
  - intros k layer frame Hin Hg. rewrite (Hnone k layer Hin) in Hg. discriminate.
  - intros k1 l1 f1 k2 l2 f2 Hin1 _ Hg. rewrite (Hnone k1 l1 Hin1) in Hg.
    discriminate.
Qed.

Lemma layers_wf_load_layer self io layer_name :
  layers_wf fs self io ->
  layers_wf fs (snd (fst (load_layer fs self io layer_name)))
    (snd (load_layer fs self io layer_name)).
Proof.
  intros [Hkeys Hentry Hframe Howner].
  destruct (load_layer_cases self io layer_name)
    as [(_ & ->) | [(layer & frame & _ & _ & ->)
       | [(layer & Hget & Hg & Hread & ->)
         | (layer & data & Hget & Hg & Hread & Hload)]]];
    cbn [fst snd].
  - split; auto.
  - split; auto.
  - split; auto.
  - cbv zeta in Hload. rewrite Hload. cbn [fst snd].
    pose proof (dict_get_In _ _ _ _ Hget) as Hin0.
    destruct (Hentry _ _ Hin0) as (Hn & Hs & Hl & Hf).
    split; cbn [with_layers layers _notify_observers next_id].
    + now apply dict_NoDup_keys_set.
    + intros k l Hin. apply dict_In_set in Hin.
      destruct Hin as [[= -> ->]|Hin]; auto.
    + intros k l f Hin Hgl. apply dict_In_set in Hin.
      destruct Hin as [[= -> ->]|Hin].
      * cbn in Hgl. injection Hgl as <-. cbn. auto.
      * destruct (Hframe _ _ _ Hin Hgl). split; auto.
    + intros k1 l1 f1 k2 l2 f2 Hin1 Hin2 Hg1 Hg2 Hid.
      apply dict_In_set in Hin1. apply dict_In_set in Hin2.
      destruct Hin1 as [[= -> ->]|Hin1], Hin2 as [[= -> ->]|Hin2]; auto.
      * cbn in Hg1. injection Hg1 as <-. cbn in Hid.
        destruct (Hframe _ _ _ Hin2 Hg2) as [Hlt _]. lia.
      * cbn in Hg2. injection Hg2 as <-. cbn in Hid.
        destruct (Hframe _ _ _ Hin1 Hg1) as [Hlt _]. lia.
      * eauto.
Qed.

Lemma reachable_layers_wf self io :
  reachable fs self io -> layers_wf fs self io.
Proof.
  induction 1 as [io|self io root _ IH|self io n _ IH|self io _ IH|self io o _ IH].
  - apply layers_wf_init.
  - now apply layers_wf_connect.
  - now apply layers_wf_load_layer.
  - unfold load_all_layers.
    apply (load_all_layers_fold_inv (layers_wf fs)); auto.
    intros. now apply layers_wf_load_layer.
  - destruct IH. split; auto.
Qed.

End StoreSteps.

Section StoreExtras.
Import DataStore Terms.
Variable fs : FileSystem.

(** One [load_layer], seen from the entries. *)
Lemma load_layer_step self io n :
  let got := fst (fst (load_layer fs self io n)) in
  let self' := snd (fst (load_layer fs self io n)) in
  got = frame_of (layers self') n
  /\ (forall k, k <> n ->
        PyDict.get (layers self') k = PyDict.get (layers self) k)
  /\ (got = None -> self' = self)
  /\ PyDict.keys (layers self') = PyDict.keys (layers self)
  /\ (forall layer, PyDict.get (layers self') n = Some layer ->
        gdf layer = None -> read_file fs (path layer) = None)
  /\ documents self' = documents self /\ maps self' = maps self
  /\ root_path self' = root_path self /\ is_connected self' = is_connected self
  /\ last_scan self' = last_scan self /\ _observers self' = _observers self.
Proof.
  unfold frame_of.
  destruct (load_layer_cases fs self io n)
    as [(Hget & ->) | [(layer & frame & Hget & Hg & ->)
       | [(layer & Hget & Hg & Hread & ->)
         | (layer & data & Hget & Hg & Hread & Hload)]]];
    cbn [fst snd].
  - rewrite Hget. repeat split; auto. congruence.
  - rewrite Hget. repeat split; auto; congruence.
  - rewrite Hget. repeat split; auto. congruence.
  - cbv zeta in Hload. rewrite Hload. cbn [fst snd with_layers layers
      documents maps root_path is_connected last_scan _observers].
    rewrite dict_get_set_same. repeat split; auto.
    + intros k Hk. apply dict_get_set_other. congruence.
    + discriminate.
    + apply dict_keys_set_mem. eapply dict_get_mem, Hget.
    + intros l [= <-]. discriminate.
Qed.

(** X1. [load_layer] touches one entry only: the names of the layers and
    their order, the entries of the other names, the documents, the
    maps, the root, the connection state, the time of the last scan and
    the observers are as before. *)
Theorem load_layer_touches_one_entry self io layer_name :
  let self' := snd (fst (load_layer fs self io layer_name)) in
  get_layer_names self' = get_layer_names self
  /\ (forall k, k <> layer_name ->
        PyDict.get (layers self') k = PyDict.get (layers self) k)
  /\ documents self' = documents self /\ maps self' = maps self
  /\ root_path self' = root_path self /\ is_connected self' = is_connected self
  /\ last_scan self' = last_scan self /\ _observers self' = _observers self.
Proof.
  destruct (load_layer_step self io layer_name)
    as (_ & Hother & _ & Hkeys & _ & Hrest).
  cbv zeta. unfold get_layer_names. auto.
Qed.

(** The state of [load_all_layers] after the names of [names]. *)
Lemma load_all_layers_fold_frames names : forall self io,
  let final :=
    fold_left
      (fun acc layer_name =>
         let '(loaded_frames, self1, io1) := acc in
         let '(got, self2, io2) := load_layer fs self1 io1 layer_name in
         match got with
         | Some frame => (PyDict.set loaded_frames layer_name frame, self2, io2)
         | None => (loaded_frames, self2, io2)
         end)
      names ([], self, io) in
  (forall k, In k names ->
     PyDict.get (fst (fst final)) k = frame_of (layers (snd (fst final))) k)
  /\ (forall k, ~ In k names -> PyDict.get (fst (fst final)) k = None)
  /\ PyDict.keys (layers (snd (fst final))) = PyDict.keys (layers self)
  /\ (forall k layer, In k names ->
        PyDict.get (layers (snd (fst final))) k = Some layer ->
        gdf layer = None -> read_file fs (path layer) = None).
Proof.
  intros self io. induction names as [|n names IH] using rev_ind; cbv zeta.
  - cbn. repeat split; auto; intros; contradiction.
  - rewrite fold_left_app. cbn [fold_left]. cbv zeta in IH.
    destruct (fold_left _ names _) as [[res s1] io1] eqn:Hfold.
    cbn [fst snd] in IH. destruct IH as (Hin & Hout & Hkeys & Hfail).
    pose proof (load_layer_step s1 io1 n)
      as (Hgot & Hother & Hnone & Hk & Hread & _).
    cbv zeta in Hgot, Hother, Hnone, Hk, Hread.
    destruct (load_layer fs s1 io1 n) as [[got s2] io2]. cbn [fst snd] in *.
    assert (Hframe : forall k, k <> n ->
              frame_of (layers s2) k = frame_of (layers s1) k)
      by (intros k Hne; unfold frame_of; now rewrite Hother).
    destruct got as [frame|]; cbn [fst snd].
    + repeat split.
      * intros k Hk'. destruct (string_dec k n) as [->|Hne].
        -- now rewrite dict_get_set_same.
        -- rewrite dict_get_set_other by congruence. rewrite Hframe by auto.
           apply Hin. apply in_app_or in Hk'. destruct Hk' as [H|[H|[]]]; congruence.
      * intros k Hk'. rewrite dict_get_set_other.
        -- apply Hout. intros H. apply Hk', in_or_app. auto.
        -- intros ->. apply Hk', in_or_app. right. now left.
      * congruence.
      * intros k layer Hk' Hget Hg. destruct (string_dec k n) as [->|Hne].
        -- eauto.
        -- rewrite Hother in Hget by auto. eapply Hfail; eauto.
           apply in_app_or in Hk'. destruct Hk' as [H|[H|[]]]; congruence.
    + rewrite (Hnone eq_refl) in *. repeat split.
      * intros k Hk'. destruct (string_dec k n) as [->|Hne].
        -- destruct (in_dec string_dec n names) as [Hn|Hn]; auto.
           rewrite Hout by auto. auto.
        -- apply Hin. apply in_app_or in Hk'. destruct Hk' as [H|[H|[]]]; congruence.
      * intros k Hk'. apply Hout. intros H. apply Hk', in_or_app. auto.
      * exact Hkeys.
      * intros k layer Hk' Hget Hg. destruct (string_dec k n) as [->|Hne].
        -- eauto.
        -- eapply Hfail; eauto.
           apply in_app_or in Hk'. destruct Hk' as [H|[H|[]]]; congruence.
Qed.

(** X2. What [load_all_layers] returns is exactly the frames the entries
    hold afterwards: a name is a key of the result if and only if its
    entry holds a frame, and the value is that frame. The names of the
    layers are as before, and an entry left without a frame is one whose
    file does not parse. *)
Theorem load_all_layers_returns_held_frames self io :
  let loaded_frames := fst (fst (load_all_layers fs self io)) in
  let self' := snd (fst (load_all_layers fs self io)) in
  (forall k, PyDict.get loaded_frames k = frame_of (layers self') k)
  /\ get_layer_names self' = get_layer_names self
  /\ (forall k layer,
        PyDict.get (layers self') k = Some layer -> gdf layer = None ->
        read_file fs (path layer) = None).
Proof.
  unfold load_all_layers, get_layer_names.
  destruct (load_all_layers_fold_frames (PyDict.keys (layers self)) self io)
    as (Hin & Hout & Hkeys & Hfail).
  cbv zeta in *. repeat split; auto.
  - intros k. destruct (in_dec string_dec k (PyDict.keys (layers self))) as [H|H].
    + auto.
    + rewrite Hout by auto. unfold frame_of.
      rewrite <- Hkeys in H. apply dict_get_None_keys in H. now rewrite H.
  - intros k layer Hget Hg. eapply Hfail; eauto.
    rewrite <- Hkeys. apply dict_mem_keys. eapply dict_get_mem, Hget.
Qed.

(** X3. In a store the operations lead to, an entry is filed under its
    own name, the name is the base name of the path of the entry, the
    path is a layer file, and no name is listed twice. *)
Theorem reachable_entry_filed_by_name self io k layer :
  reachable fs self io ->
  PyDict.get (layers self) k = Some layer ->
  name layer = k /\ stem (path layer) = k
  /\ is_layer_file fs (path layer) = true
  /\ format layer = remove_dots (str_lower fs (suffix (path layer)))
  /\ NoDup (get_layer_names self).
Proof.
  intros Hr Hget. destruct (reachable_layers_wf fs self io Hr) as [Hk He _ _].
  destruct (He k layer (dict_get_In _ _ _ _ Hget)) as (H1 & H2 & H3 & H4).
  auto.
Qed.

(** X4. In a store the operations lead to, a frame belongs to one entry:
    two entries that hold frames of the same identity are the same
    entry; and every frame held is older than the next object the
    allocator makes, so a frame read later is a different object. *)
Theorem reachable_frames_exclusive self io k1 l1 f1 k2 l2 f2 :
  reachable fs self io ->
  PyDict.get (layers self) k1 = Some l1 -> gdf l1 = Some f1 ->
  PyDict.get (layers self) k2 = Some l2 -> gdf l2 = Some f2 ->
  (gdf_id f1 = gdf_id f2 -> k1 = k2)
  /\ gdf_id f1 < next_id io /\ gdf_id f2 < next_id io.
Proof.
  intros Hr Hg1 Hf1 Hg2 Hf2.
  destruct (reachable_layers_wf fs self io Hr) as [_ _ Hframe Howner].
  pose proof (dict_get_In _ _ _ _ Hg1) as Hin1.
  pose proof (dict_get_In _ _ _ _ Hg2) as Hin2.
  destruct (Hframe _ _ _ Hin1 Hf1) as [Hlt1 _].
  destruct (Hframe _ _ _ Hin2 Hf2) as [Hlt2 _].
  split; [|split]; auto.
  intros Hid. eapply Howner; eauto.
Qed.

(** X5. In a store the operations lead to, what [load_layer] returns,
    from the cache or not, holds what the file of the entry parses to. *)
Theorem reachable_load_layer_coherent self io layer_name frame self' io' :
  reachable fs self io ->
  load_layer fs self io layer_name = (Some frame, self', io') ->
  exists layer,
    PyDict.get (layers self) layer_name = Some layer
    /\ read_file fs (path layer) = Some (gdf_data frame).
Proof.
  intros Hr Hload.
  destruct (reachable_layers_wf fs self io Hr) as [_ _ Hframe _].
  destruct (load_layer_cases fs self io layer_name)
    as [(_ & H) | [(layer & cached & Hget & Hg & H)
       | [(layer & _ & _ & _ & H)
         | (layer & data & Hget & Hg & Hread & H)]]];
    rewrite H in Hload; try discriminate.
  - injection Hload as <- <- <-. exists layer. split; auto.
    destruct (Hframe _ _ _ (dict_get_In _ _ _ _ Hget) Hg) as [_ Hdata].
    exact Hdata.
  - cbv zeta in Hload. injection Hload as <- <- <-. exists layer. auto.
Qed.

(** X6. After [connect] on an existing folder, [get_summary] agrees with
    what [connect] returned: the store is connected, its root is the
    path of the folder in the normal form of [pathlib], the three totals
    are the counts of the scan, no layer counts as loaded, and the time
    of the last scan is the time returned. That time is the one reading
    of the clock the call makes. *)
Theorem connect_then_get_summary self io folder :
  fs_exists fs (Path_of folder) = true ->
  exists summary timestamp self' io',
    connect fs self io folder = (connect_ok summary timestamp, self', io')
    /\ timestamp = clock io 0
    /\ (forall n, clock io' n = clock io (S n))
    /\ get_summary self'
       = {| sm_connected := true; sm_root_path := Some (Path_of folder);
            total_capas := capas summary;
            total_documentos := documentos summary;
            total_mapas := mapas summary;
            capas_cargadas := 0;
            sm_last_scan := Some timestamp |}.
Proof.
  intros Hex. rewrite (connect_existing fs self io folder Hex). cbv zeta.
  do 4 eexists. split; [reflexivity|]. split; [reflexivity|]. split.
  { intros n. cbn [_notify_observers datetime_now snd clock].
    now rewrite (proj1 (scan_layers_fold_world fs _ _ _ _)). }
  unfold get_summary. cbn [layers documents maps is_connected root_path
    last_scan capas documentos mapas]. f_equal.
  assert (Hall : Forall (fun l => loaded l = false)
                   (PyDict.values
                      (snd (fst (fold_left (_scan_layers_step fs)
                         (fs_rglob fs (subfolder_or_root fs (Path_of folder) "capas"))
                         ([], [], io)))))).
  { apply scan_layers_fold_values; [|constructor].
    intros io0 file. now destruct (analyze_layer_entry fs io0 file) as (_ & _ & H & _). }
  induction Hall as [|l ls Hl _ IH]; cbn; auto. now rewrite Hl.
Qed.

(** X7. [connect] on a folder that does not exist reports the error and
    keeps the catalog: the store and the world are as before, so a frame
    loaded before is still served from the cache. *)
Theorem connect_missing_folder_keeps_catalog self io folder :
  fs_exists fs (Path_of folder) = false ->
  connect fs self io folder
  = (connect_error ("La carpeta no existe: " ++ folder)%string, self, io)
  /\ forall k layer frame,
       PyDict.get (layers self) k = Some layer -> gdf layer = Some frame ->
       load_layer fs (snd (fst (connect fs self io folder)))
         (snd (connect fs self io folder)) k
       = (Some frame, self, io).
Proof.
  intros Hex. unfold connect. rewrite Hex. cbn [negb fst snd]. split; auto.
  intros k layer frame Hget Hg. eapply load_layer_hit; eauto.
Qed.

Lemma first_occurrences_ext xs : forall seen1 seen2,
  (forall x, In x seen1 <-> In x seen2) ->
  first_occurrences seen1 xs = first_occurrences seen2 xs.
Proof.
  induction xs as [|x xs IH]; intros seen1 seen2 Hiff; cbn; auto.
  assert (Hc : contains seen1 x = contains seen2 x).
  { destruct (contains seen1 x) eqn:E1, (contains seen2 x) eqn:E2; auto.
    - apply contains_In, Hiff, contains_In in E1. congruence.
    - apply contains_In, Hiff, contains_In in E2. congruence. }
  rewrite Hc. destruct (contains seen2 x).
  - now apply IH.
  - f_equal. apply IH. intros y. simpl. rewrite Hiff. tauto.
Qed.

(** The keys [_scan_layers] adds, in order. *)
Lemma scan_layers_fold_key_order files :
  forall processed (lyrs : PyDict.dict LayerInfo) io,
  (forall x, In x processed -> In x (PyDict.keys lyrs)) ->
  PyDict.keys
    (snd (fst (fold_left (_scan_layers_step fs) files (processed, lyrs, io))))
  = PyDict.keys lyrs
    ++ first_occurrences (PyDict.keys lyrs)
         (map stem (filter (is_layer_file fs) files)).
Proof.
  induction files as [|file files IH]; intros processed lyrs io Hsub;
    cbn [fold_left filter].
  - cbn. now rewrite app_nil_r.
  - destruct (scan_layers_step_cases fs processed lyrs io file)
      as [(Hl & ->) | [(Hl & Hshp & Hin & ->)
         | (Hl & _ & processed' & Hp1 & _ & _ & ->)]];
      rewrite Hl.
    + now apply IH.
    + rewrite IH by auto. cbn [map first_occurrences].
      apply Hsub, contains_In in Hin. now rewrite Hin.
    + rewrite IH.
      2:{ intros x Hx. apply dict_In_keys_set. destruct (Hp1 x Hx); auto. }
      cbn [map first_occurrences]. rewrite dict_keys_set.
      destruct (PyDict.mem lyrs (stem file)) eqn:Hmem.
      * apply dict_mem_keys, contains_In in Hmem. now rewrite Hmem.
      * assert (Hc : contains (PyDict.keys lyrs) (stem file) = false).
        { destruct (contains (PyDict.keys lyrs) (stem file)) eqn:E; auto.
          apply contains_In, dict_mem_keys in E. congruence. }
        rewrite Hc, <- app_assoc. cbn [app]. do 2 f_equal.
        apply first_occurrences_ext. intros x. rewrite in_app_iff. simpl. tauto.
Qed.

(** X8. After [connect] on an existing folder, [get_layer_names] lists
    the base names of the layer files of the scanned folder in the order
    the files were found, each name once, at its first occurrence. *)
Theorem connect_then_get_layer_names self io folder :
  fs_exists fs (Path_of folder) = true ->
  get_layer_names (snd (fst (connect fs self io folder)))
  = first_occurrences []
      (map stem
         (filter (is_layer_file fs)
            (fs_rglob fs (subfolder_or_root fs (Path_of folder) "capas")))).
Proof.
  intros Hex. rewrite (connect_existing fs self io folder Hex). cbv zeta.
  cbn [fst snd]. unfold get_layer_names. cbn [layers].
  rewrite scan_layers_fold_key_order by (intros x []). reflexivity.
Qed.

(** X9. Observers are told of a scan and of a frame read, not of
    anything else. [connect] on an existing folder calls every observer
    once, in the order they were added, with the summary it returns, and
    [connect] on a missing folder calls none; [load_layer] calls every
    observer once, with the name and the new frame, when it reads a
    frame, and calls none on a cached frame, an unknown name or a file
    that does not parse. *)
Theorem observers_told_of_scans_and_new_frames self io :
  (forall root,
     notified (snd (connect fs self io root))
     = notified io
       ++ match fst (fst (connect fs self io root)) with
          | connect_ok summary _ =>
              map (fun o => (o, connected summary)) (_observers self)
          | connect_error _ => []
          end)
  /\ (forall layer_name,
        notified (snd (load_layer fs self io layer_name))
        = notified io
          ++ match PyDict.get (layers self) layer_name with
             | Some layer =>
                 match gdf layer, read_file fs (path layer) with
                 | None, Some data =>
                     map (fun o =>
                            (o, layer_loaded layer_name
                                  {| gdf_id := next_id io; gdf_data := data |}))
                       (_observers self)
                 | _, _ => []
                 end
             | None => []
             end).
Proof.
  split.
  - intros root. destruct (fs_exists fs (Path_of root)) eqn:Hex.
    + rewrite (connect_existing fs self io root Hex). cbv zeta.
      cbn [fst snd _notify_observers datetime_now notified _observers].
      f_equal. apply scan_layers_fold_world.
    + unfold connect. rewrite Hex. cbn. now rewrite app_nil_r.
  - intros n.
    destruct (load_layer_cases fs self io n)
      as [(Hget & ->) | [(layer & frame & Hget & Hg & ->)
         | [(layer & Hget & Hg & Hread & ->)
           | (layer & data & Hget & Hg & Hread & Hload)]]];
      rewrite Hget; cbn [fst snd].
    + now rewrite app_nil_r.
    + rewrite Hg. now rewrite app_nil_r.
    + rewrite Hg, Hread. cbn. now rewrite app_nil_r.
    + rewrite Hg, Hread. cbv zeta in Hload. rewrite Hload. reflexivity.
Qed.

(** X10. Loading does not refresh the metadata. On a store whose flags
    say which entries hold a frame, [get_layer_info] after [load_layer]
    is what it was before, for every name, but for the flag [loaded] of
    the layer that was asked for, which is set when a frame was returned. *)
Theorem get_layer_info_after_load self io layer_name k :
  consistent self ->
  get_layer_info (snd (fst (load_layer fs self io layer_name))) k
  = if String.eqb k layer_name then
      match fst (fst (load_layer fs self io layer_name)) with
      | Some _ => option_map marked_loaded (get_layer_info self k)
      | None => get_layer_info self k
      end
    else get_layer_info self k.
Proof.
  intros Hc. unfold get_layer_info, PyDict.mem.
  destruct (String.eqb k layer_name) eqn:E.
  - apply String.eqb_eq in E. subst k.
    destruct (load_layer_cases fs self io layer_name)
      as [(Hget & ->) | [(layer & frame & Hget & Hg & ->)
         | [(layer & Hget & Hg & Hread & ->)
           | (layer & data & Hget & Hg & Hread & Hload)]]];
      cbn [fst snd]; auto.
    + rewrite Hget. cbn. f_equal. unfold marked_loaded, to_dict. cbn.
      pose proof (proj1 (consistent_forall self) Hc layer
                    (dict_get_In_values _ _ _ _ Hget)) as Hl.
      unfold has_frame in Hl. rewrite Hg in Hl. now rewrite Hl.
    + cbv zeta in Hload. rewrite Hload. cbn [fst snd with_layers layers].
      rewrite dict_get_set_same, Hget. reflexivity.
  - apply String.eqb_neq in E.
    destruct (load_layer_step self io layer_name) as (_ & Hother & _).
    cbv zeta in Hother. now rewrite Hother.
Qed.

End StoreExtras.

(** * Further properties of the execution engine *)

Section ValidationExtras.
Import Engine EngineTerms.

(** *** Letter case *)

Lemma is_whitespace_range c :
  is_whitespace c = true -> (c <= 32 \/ 133 <= c)%N.
Proof.
  unfold is_whitespace. rewrite !orb_true_iff, !andb_true_iff.
  rewrite !N.leb_le, !N.eqb_eq. lia.
Qed.

Lemma capital_not_whitespace c :
  (65 <= c <= 122)%N -> is_whitespace c = false.
Proof.
  intros H. destruct (is_whitespace c) eqn:E; auto.
  apply is_whitespace_range in E. lia.
Qed.

Lemma atom_matches_lower_char a c :
  atom_matches a (lower_char c) = atom_matches a c.
Proof.
  unfold lower_char.
  destruct ((65 <=? c) && (c <=? 90))%N eqn:Hcap; auto.
  apply andb_true_iff in Hcap. destruct Hcap as [H1 H2].
  apply N.leb_le in H1, H2.
  destruct a; cbn [atom_matches].
  - f_equal. unfold fold_case.
    assert (E1 : ((65 <=? c) && (c <=? 90))%N = true).
    { apply andb_true_iff. split; now apply N.leb_le. }
    assert (E2 : ((65 <=? c + 32) && (c + 32 <=? 90))%N = false).
    { apply andb_false_iff. right. apply N.leb_gt. lia. }
    assert (E3 : ((c + 32 =? 304) || (c + 32 =? 305))%N = false).
    { apply orb_false_iff. split; apply N.eqb_neq; lia. }
    assert (E4 : (c + 32 =? 383)%N = false) by (apply N.eqb_neq; lia).
    assert (E5 : (c + 32 =? 8490)%N = false) by (apply N.eqb_neq; lia).
    now rewrite E1, E2, E3, E4, E5.
  - rewrite !capital_not_whitespace by lia. reflexivity.
  - f_equal. destruct (N.eqb_spec (c + 32) 10), (N.eqb_spec c 10); auto; lia.
Qed.

Lemma star_lower_case a (k : text -> bool) :
  (forall s, k (lower_case s) = k s) ->
  forall s, star a k (lower_case s) = star a k s.
Proof.
  intros Hk. induction s as [|c s IH].
  - cbn [lower_case map star]. rewrite !orb_false_r. apply (Hk []).
  - change (lower_case (c :: s)) with (lower_char c :: lower_case s).
    cbn [star]. rewrite atom_matches_lower_char, IH. f_equal.
    apply (Hk (c :: s)).
Qed.

Lemma match_here_lower_case r :
  forall s, match_here r (lower_case s) = match_here r s.
Proof.
  induction r as [|[a q] r IH]; intros s; cbn [match_here]; auto.
  destruct q.
  - destruct s as [|c s]; auto.
    change (lower_case (c :: s)) with (lower_char c :: lower_case s).
    cbv iota. now rewrite atom_matches_lower_char, IH.
  - now apply star_lower_case.
  - destruct s as [|c s]; auto.
    change (lower_case (c :: s)) with (lower_char c :: lower_case s).
    cbv iota. rewrite atom_matches_lower_char. f_equal.
    now apply star_lower_case.
Qed.

Lemma re_search_lower_case pattern code :
  re_search pattern (lower_case code) = re_search pattern code.
Proof.
  unfold re_search. generalize (re_compile pattern). intros r.
  induction code as [|c code IH].
  - cbn [lower_case map search_from]. rewrite !orb_false_r.
    apply (match_here_lower_case r []).
  - change (lower_case (c :: code)) with (lower_char c :: lower_case code).
    cbn [search_from]. rewrite IH. f_equal.
    apply (match_here_lower_case r (c :: code)).
Qed.

Lemma validate_code_lower_case code :
  validate_code (lower_case code) = validate_code code.
Proof.
  unfold validate_code.
  assert (H : forall ps,
            find (fun pattern => re_search pattern (lower_case code)) ps
            = find (fun pattern => re_search pattern code) ps).
  { induction ps as [|p ps IH]; cbn [find]; auto.
    rewrite re_search_lower_case, IH. reflexivity. }
  now rewrite H.
Qed.

(** X11. Validation does not look at the case of letters: two scripts
    that differ in the case of ASCII letters only get the same verdict
    and the same message. *)
Theorem validate_code_ignores_case code1 code2 :
  lower_case code1 = lower_case code2 -> validate_code code1 = validate_code code2.
Proof.
  intros H. rewrite <- (validate_code_lower_case code1), H.
  apply validate_code_lower_case.
Qed.

(** *** A pattern found in a part of a script *)

Lemma star_app a (k : text -> bool) post :
  (forall s, k s = true -> k (s ++ post) = true) ->
  forall s, star a k s = true -> star a k (s ++ post) = true.
Proof.
  intros Hk. induction s as [|c s IH]; cbn [star].
  - rewrite orb_false_r. intros H. apply Hk in H. cbn [app] in *.
    destruct post; cbn [star]; rewrite H; reflexivity.
  - intros H. apply orb_true_iff in H. destruct H as [H|H].
    + apply Hk in H. cbn [app star] in *. rewrite H. reflexivity.
    + apply andb_true_iff in H. destruct H as [Hc Hs].
      cbn [app star]. rewrite Hc, (IH Hs). apply orb_true_r.
Qed.

Lemma match_here_app r post : forall s,
  match_here r s = true -> match_here r (s ++ post) = true.
Proof.
  induction r as [|[a q] r IH]; intros s; cbn [match_here]; auto.
  destruct q.
  - destruct s as [|c s]; [discriminate|]. cbn [app].
    intros H. apply andb_true_iff in H. destruct H as [Hc Hs].
    now rewrite Hc, IH.
  - apply star_app. exact IH.
  - destruct s as [|c s]; [discriminate|]. cbn [app].
    intros H. apply andb_true_iff in H. destruct H as [Hc Hs].
    rewrite Hc. cbn [andb]. now apply star_app.
Qed.

Lemma search_from_app_r r post : forall s,
  search_from r s = true -> search_from r (s ++ post) = true.
Proof.
  induction s as [|c s IH]; cbn [search_from].
  - rewrite orb_false_r. intros H.
    apply (match_here_app r post []) in H. cbn [app] in *.
    destruct post; cbn [search_from]; rewrite H; reflexivity.
  - intros H. apply orb_true_iff in H. destruct H as [H|H].
    + apply (match_here_app r post) in H. cbn [app search_from] in *.
      rewrite H. reflexivity.
    + cbn [app search_from]. rewrite (IH H). apply orb_true_r.
Qed.

Lemma search_from_app_l r s : forall pre,
  search_from r s = true -> search_from r (pre ++ s) = true.
Proof.
  induction pre as [|c pre IH]; cbn [app]; auto.
  intros H. cbn [search_from]. rewrite (IH H). apply orb_true_r.
Qed.

Lemma validate_code_rejected code :
  fst (validate_code code) = false ->
  exists pattern,
    In pattern FORBIDDEN_PATTERNS /\ re_search pattern code = true.
Proof.
  unfold validate_code.
  destruct (find (fun pattern => re_search pattern code) FORBIDDEN_PATTERNS)
    as [p|] eqn:Hfind; [|discriminate].
  intros _. apply find_some in Hfind. eauto.
Qed.

(** X12. A script that holds a rejected text anywhere inside it is
    rejected: the deny patterns are looked for at every position, with
    no regard for what surrounds them. *)
Theorem validate_code_rejects_embedded code before after :
  fst (validate_code code) = false ->
  fst (validate_code (before ++ code ++ after)) = false.
Proof.
  intros H. destruct (validate_code_rejected code H) as (p & Hin & Hm).
  destruct (validate_code_rejects (before ++ code ++ after))
    as (q & _ & _ & Hv).
  - exists p. split; auto. unfold re_search in *.
    now apply search_from_app_l, search_from_app_r.
  - now rewrite Hv.
Qed.

(** *** Names of layers as identifiers *)

Lemma safe_name_all_word name : all_word (safe_name name) = true.
Proof.
  induction name as [|c name IH]; cbn [safe_name all_word]; auto.
  destruct (is_word c) eqn:Hw.
  - cbn [all_word]. now rewrite Hw.
  - destruct (Nat.leb 128 (nat_of_ascii c) && Nat.leb (nat_of_ascii c) 191); auto.
Qed.

Lemma safe_name_of_word name : all_word name = true -> safe_name name = name.
Proof.
  induction name as [|c name IH]; cbn [safe_name all_word]; auto.
  intros H. apply andb_true_iff in H. destruct H as [Hc Hn].
  now rewrite Hc, IH.
Qed.

(** X13. The identifier a layer is bound to is made of ASCII letters,
    digits and underscores only; a name that is already so is kept as it
    is; and sanitizing twice changes nothing more. *)
Theorem safe_name_is_identifier name :
  all_word (safe_name name) = true
  /\ (all_word name = true -> safe_name name = name)
  /\ safe_name (safe_name name) = safe_name name.
Proof.
  split; [apply safe_name_all_word|]. split; [apply safe_name_of_word|].
  apply safe_name_of_word, safe_name_all_word.
Qed.

Lemma fold_set_get_other (x : string) (l : list (string * value)) :
  forall d : namespace,
  (forall kv, In kv l -> safe_name (fst kv) <> x) ->
  PyDict.get
    (fold_left (fun acc kv => PyDict.set acc (safe_name (fst kv)) (snd kv)) l d) x
  = PyDict.get d x.
Proof.
  induction l as [|kv l IH]; intros d Hne; cbn [fold_left]; auto.
  rewrite IH by (intros kv' Hin; apply Hne; now right).
  apply dict_get_set_other. apply Hne. now left.
Qed.

(** X14. How layers are bound in the namespace of a script. A layer is
    bound under its sanitized name, unless a later layer has the same
    sanitized name, which then takes the binding; and a name that is the
    sanitized name of no layer has the binding [execute] wrote: the
    module, the library class, or the dictionary of layers. A layer whose
    sanitized name is that of a module takes its place. *)
Theorem make_exec_globals_bindings self :
  (forall before k v after,
     layers self = before ++ (k, v) :: after ->
     (forall kv, In kv after -> safe_name (fst kv) <> safe_name k) ->
     PyDict.get (make_exec_globals self) (safe_name k) = Some v)
  /\ (forall x,
        (forall kv, In kv (layers self) -> safe_name (fst kv) <> x) ->
        PyDict.get (make_exec_globals self) x = PyDict.get literal_globals x).
Proof.
  unfold make_exec_globals, PyDict.items. fold literal_globals. split.
  - intros before k v after -> Hlater.
    rewrite fold_left_app. cbn [fold_left fst snd].
    rewrite fold_set_get_other by exact Hlater.
    apply dict_get_set_same.
  - intros x Hx. now apply fold_set_get_other.
Qed.

End ValidationExtras.

Section ExecuteExtras.
Import Engine EngineTerms.
Variable python : interpreter.

(** The engine after [execute], past validation: the one the [try]
    left. *)
Lemma finally_restore_engine c r :
  snd (fst (finally_restore c r)) = engine (snd r).
Proof.
  destruct r as [res st]. cbn [finally_restore snd].
  destruct (PyDict.get (globals st) "folium") as [holder|]; auto.
  destruct (setattr_Map holder c (world st)); auto.
Qed.

Lemma except_Exception_state r : snd (except_Exception r) = snd r.
Proof.
  destruct r as [[res|ex] st]; cbn; auto. destruct (exc_is_Exception ex); auto.
Qed.

(** X15. Apart from what the run of the script does, [execute] writes
    two fields of the engine only. It starts the run with the lists of
    captured maps and figures emptied and the layers and results as they
    were; after the run the layers, the results and the figures are
    what the run left, and the captured maps are those the run left,
    with at most some added at the end. *)
Theorem execute_writes_captures_only self w code :
  fst (validate_code code) = true ->
  PyDict.get (make_exec_globals self) "folium" = Some (VLib Folium) ->
  let self' := snd (fst (execute python self w code)) in
  let st1 := snd (after_run python self w code) in
  engine (start_state self w)
  = {| layers := layers self; results := results self;
       generated_maps := []; generated_figures := [] |}
  /\ layers self' = layers (engine st1)
  /\ results self' = results (engine st1)
  /\ generated_figures self' = generated_figures (engine st1)
  /\ exists more, generated_maps self' = generated_maps (engine st1) ++ more.
Proof.
  intros Hv Hf. cbv zeta. split; [reflexivity|].
  rewrite (execute_past_validation python self w code Hv Hf).
  rewrite finally_restore_engine, except_Exception_state.
  rewrite try_body_after_run.
  destruct (after_run python self w code) as [[u|ex] st1]; cbn [snd].
  - pose proof (collect_maps_extends (folium_Map (world st1))
                  (PyDict.items (globals st1)) (generated_maps (engine st1)))
      as (more & Hmore).
    destruct (collect_maps _ _ _) as [[u'|ex'] found]; cbn [snd] in Hmore;
      cbn; repeat split; eauto.
  - repeat split; auto. exists []. now rewrite app_nil_r.
Qed.

(** X16. What an earlier run left in the lists of captured maps and
    figures has no part in a run that passes validation: two engines
    over the same layers get the same result, the same engine state and
    the same world. *)
Theorem execute_ignores_earlier_captures self1 self2 w code :
  fst (validate_code code) = true ->
  layers self1 = layers self2 -> results self1 = results self2 ->
  execute python self1 w code = execute python self2 w code.
Proof.
  intros Hv Hl Hr. unfold execute, make_exec_globals.
  rewrite (validate_code_accepts code Hv). cbn [negb]. now rewrite Hl, Hr.
Qed.


End ExecuteExtras.

(** * The further properties on the samples *)

Section StoreExtrasSamples.
Import DataStore Terms Sample.

Lemma reachable_loaded_store : reachable kb loaded_store loaded_io.
Proof. apply reach_load_layer, reach_connect, reach_init. Qed.

Lemma reachable_cuenca_store : reachable cuenca cuenca_store cuenca_io.
Proof. apply reach_load_all_layers, reach_connect, reach_init. Qed.

(** The shapefile of the second tree has its extension in capitals. *)
Lemma reachable_entry_filed_by_name_witness :
  exists layer,
    PyDict.get (layers cuenca_store) "Rios" = Some layer
    /\ path layer = "cuenca/Rios.SHP"
    /\ stem (path layer) = "Rios"
    /\ format layer = "shp"
    /\ NoDup (get_layer_names cuenca_store).
Proof.
  eexists. split; [reflexivity|]. split; [reflexivity|].
  destruct (reachable_entry_filed_by_name cuenca cuenca_store cuenca_io "Rios"
              _ reachable_cuenca_store eq_refl)
    as (_ & Hstem & _ & Hformat & Hnd).
  split; [exact Hstem|]. split; [exact Hformat | exact Hnd].
Defined.

(** The two layers of the second tree are both loaded; their frames are
    two objects. *)
Lemma reachable_frames_exclusive_witness :
  exists rios vias f1 f2,
    PyDict.get (layers cuenca_store) "Rios" = Some rios /\ gdf rios = Some f1
    /\ PyDict.get (layers cuenca_store) "vias" = Some vias /\ gdf vias = Some f2
    /\ gdf_id f1 <> gdf_id f2
    /\ gdf_id f1 < next_id cuenca_io /\ gdf_id f2 < next_id cuenca_io.
Proof.
  do 4 eexists.
  split; [reflexivity|]. split; [reflexivity|].
  split; [reflexivity|]. split; [reflexivity|].
  destruct (reachable_frames_exclusive cuenca cuenca_store cuenca_io
              "Rios" _ _ "vias" _ _
              reachable_cuenca_store eq_refl eq_refl eq_refl eq_refl)
    as (Hsame & Hlt1 & Hlt2).
  split; [|split; [exact Hlt1 | exact Hlt2]].
  intros Hid. specialize (Hsame Hid). discriminate.
Defined.

Lemma reachable_load_layer_coherent_witness :
  exists layer,
    PyDict.get (layers loaded_store) "rios" = Some layer
    /\ read_file kb (path layer) = Some (gdf_data rios_frame).
Proof.
  apply (reachable_load_layer_coherent kb loaded_store loaded_io "rios"
           rios_frame loaded_store loaded_io reachable_loaded_store).
  reflexivity.
Defined.

(** The folder is given with a slash at its end; the root kept and
    reported has none. *)
Lemma connect_then_get_summary_witness :
  exists summary timestamp self' io',
    connect kb __init__ io0 "/kb/" = (connect_ok summary timestamp, self', io')
    /\ timestamp = 17
    /\ (forall n, clock io' n = 18 + n)
    /\ get_summary self'
       = {| sm_connected := true; sm_root_path := Some "/kb";
            total_capas := capas summary;
            total_documentos := documentos summary;
            total_mapas := mapas summary;
            capas_cargadas := 0;
            sm_last_scan := Some timestamp |}.
Proof.
  destruct (connect_then_get_summary kb __init__ io0 "/kb/" eq_refl)
    as (summary & timestamp & self' & io' & Hconnect & Htime & Hclock & Hsum).
  exists summary, timestamp, self', io'.
  split; [exact Hconnect|]. split; [exact Htime|]. split; [|exact Hsum].
  intros n. rewrite Hclock. reflexivity.
Defined.

Lemma connect_missing_folder_keeps_catalog_witness :
  fs_exists kb (Path_of "/nada") = false
  /\ connect kb loaded_store loaded_io "/nada"
     = (connect_error "La carpeta no existe: /nada", loaded_store, loaded_io).
Proof.
  split; [reflexivity|].
  apply (connect_missing_folder_keeps_catalog kb loaded_store loaded_io "/nada").
  reflexivity.
Defined.

Lemma connect_then_get_layer_names_witness :
  get_layer_names (snd (fst (connect kb __init__ io0 "/kb"))) = ["rios"; "vias"]
  /\ get_layer_names (snd (fst (connect cuenca __init__ io0 "./cuenca/")))
     = ["Rios"; "vias"].
Proof.
  rewrite (connect_then_get_layer_names kb __init__ io0 "/kb" eq_refl).
  rewrite (connect_then_get_layer_names cuenca __init__ io0 "./cuenca/" eq_refl).
  split; reflexivity.
Defined.

Lemma get_layer_info_after_load_witness :
  get_layer_info (snd (fst (load_layer kb connected_store connected_io "rios")))
    "rios"
  = option_map marked_loaded (get_layer_info connected_store "rios").
Proof.
  apply (get_layer_info_after_load kb connected_store connected_io "rios" "rios").
  reflexivity.
Defined.

Lemma load_layer_twice_witness :
  load_layer kb loaded_store loaded_io "rios"
  = (Some rios_frame, loaded_store, loaded_io).
Proof.
  apply (load_layer_twice kb connected_store connected_io "rios").
  reflexivity.
Defined.

End StoreExtrasSamples.

Section EngineExtrasSamples.
Import Engine EngineTerms SampleScripts.

Lemma validate_code_ignores_case_witness :
  validate_code (of_string "IMPORT OS") = validate_code (of_string "import os").
Proof. apply validate_code_ignores_case. reflexivity. Defined.

(** A name such as [datos] ends in [os]: a script that reads an attribute
    of it is rejected. *)
Lemma validate_code_rejects_embedded_witness :
  fst (validate_code (of_string "os.")) = false
  /\ fst (validate_code (of_string "print(datos.columns)")) = false.
Proof.
  split; [reflexivity|].
  apply (validate_code_rejects_embedded (of_string "os.")
           (of_string "print(dat") (of_string "columns)")).
  reflexivity.
Defined.

(** A script with an em space (U+2003) after [import]: two patterns are
    found in it, and the message names the first of the list. *)
Lemma validate_code_names_first_witness :
  validate_code (of_string "import" ++ [8195%N] ++ of_string "os; os.getcwd()")
  = (false, "Operación no permitida detectada: import\s+os")
  /\ re_search "os\."
       (of_string "import" ++ [8195%N] ++ of_string "os; os.getcwd()") = true
  /\ exists before after,
       FORBIDDEN_PATTERNS = before ++ "import\s+os" :: after
       /\ re_search "import\s+os"
            (of_string "import" ++ [8195%N] ++ of_string "os; os.getcwd()") = true
       /\ Forall
            (fun p =>
               re_search p
                 (of_string "import" ++ [8195%N] ++ of_string "os; os.getcwd()")
               = false)
            before.
Proof.
  split; [reflexivity|]. split; [reflexivity|].
  apply (validate_code_names_first
           (of_string "import" ++ [8195%N] ++ of_string "os; os.getcwd()")
           "import\s+os").
  reflexivity.
Defined.

Lemma safe_name_is_identifier_witness :
  safe_name "uso del suelo-2020" = "uso_del_suelo_2020"
  /\ all_word (safe_name "uso del suelo-2020") = true
  /\ safe_name "rios_2020" = "rios_2020".
Proof.
  destruct (safe_name_is_identifier "uso del suelo-2020") as (Hw & _ & _).
  destruct (safe_name_is_identifier "rios_2020") as (_ & Hid & _).
  split; [reflexivity|]. split; [exact Hw | apply Hid; reflexivity].
Defined.

(** Two layers with the same sanitized name: the later one is bound. *)
Lemma make_exec_globals_bindings_witness :
  PyDict.get
    (make_exec_globals
       (__init__ [("uso-suelo", VObj 0 KGeoDataFrame);
                  ("uso_suelo", VObj 1 KGeoDataFrame)]))
    "uso_suelo"
  = Some (VObj 1 KGeoDataFrame)
  /\ PyDict.get (make_exec_globals engine0) "gpd" = Some (VLib Geopandas).
Proof.
  destruct (make_exec_globals_bindings
              (__init__ [("uso-suelo", VObj 0 KGeoDataFrame);
                         ("uso_suelo", VObj 1 KGeoDataFrame)]))
    as [Hlayer _].
  destruct (make_exec_globals_bindings engine0) as [_ Hother].
  split.
  - apply (Hlayer [("uso-suelo", VObj 0 KGeoDataFrame)] "uso_suelo"
             (VObj 1 KGeoDataFrame) []); [reflexivity|].
    intros kv [].
  - rewrite (Hother "gpd"); [reflexivity|].
    intros kv [<-|[]]. discriminate.
Defined.



Lemma capture_in_construction_order_witness :
  exists st',
    exec_code true [SAssign "a" NewMap; SAssign "b" NewMap] (start_state engine0 w0)
    = (Returned tt, st')
    /\ generated_maps (engine st') = [VObj 1 KMap; VObj 2 KMap]
    /\ next_id (world st') = 3.
Proof.
  apply (capture_in_construction_order true ["a"; "b"] (start_state engine0 w0));
    reflexivity.
Defined.

(** The run builds one map, which the closure captures; the layers are
    those of the engine before the call. *)
Lemma execute_writes_captures_only_witness :
  layers (snd (fst (execute python engine0 w0 (of_string "mapa = folium.Map()"))))
  = layers engine0
  /\ exists more,
       generated_maps
         (snd (fst (execute python engine0 w0 (of_string "mapa = folium.Map()"))))
       = [VObj 1 KMap] ++ more.
Proof.
  destruct (execute_writes_captures_only python engine0 w0
              (of_string "mapa = folium.Map()") eq_refl eq_refl)
    as (_ & Hlayers & _ & _ & Hmaps).
  split; [exact Hlayers | exact Hmaps].
Defined.

Lemma execute_ignores_earlier_captures_witness :
  execute python
    {| layers := layers engine0; results := [];
       generated_maps := [VObj 7 KMap]; generated_figures := [] |}
    w0 (of_string "mapa = folium.Map()")
  = execute python engine0 w0 (of_string "mapa = folium.Map()").
Proof.
  apply (execute_ignores_earlier_captures python); reflexivity.
Defined.


End EngineExtrasSamples.

(** * Properties of [generate_geoprocessing_code] *)

Section TemplateFacts.
Import Engine EngineTerms.

Lemma render_fields pieces kwargs :
  well_formed pieces = true ->
  match find (fun f => negb (PyDict.mem kwargs f)) (fields pieces) with
  | Some f => render pieces kwargs = Raised (KeyError f)
  | None => exists text, render pieces kwargs = Returned text
  end.
Proof.
  induction pieces as [|[c|name|e] pieces IH]; cbn [well_formed fields render find].
  - eauto.
  - intros Hwf. specialize (IH Hwf).
    destruct (find _ (fields pieces)) as [f|].
    + now rewrite IH.
    + destruct IH as [text ->]. eauto.
  - intros Hwf. specialize (IH Hwf). unfold PyDict.mem.
    destruct (PyDict.get kwargs name) as [v|]; cbn [negb]; auto.
    destruct (find _ (fields pieces)) as [f|].
    + now rewrite IH.
    + destruct IH as [text ->]. eauto.
  - discriminate.
Qed.

Lemma render_ext pieces kwargs1 kwargs2 :
  (forall f, In f (fields pieces) -> PyDict.get kwargs1 f = PyDict.get kwargs2 f) ->
  render pieces kwargs1 = render pieces kwargs2.
Proof.
  induction pieces as [|[c|name|e] pieces IH]; cbn [fields render]; auto.
  - intros H. now rewrite IH.
  - intros H. rewrite (H name) by now left.
    rewrite IH by (intros f Hf; apply H; now right). reflexivity.
Qed.

Lemma templates_well_formed operation template :
  PyDict.get templates operation = Some template ->
  well_formed (format_parse None template) = true.
Proof.
  unfold templates. cbn [PyDict.get].
  repeat match goal with
         | |- context [String.eqb ?a operation] =>
             destruct (String.eqb a operation);
             [intros [= <-]; vm_compute; reflexivity|]
         end.
  discriminate.
Qed.

(** X25. [generate_geoprocessing_code] and its parameters. For an
    operation that has no template it returns the comment that names the
    operation, whatever the parameters. For [buffer], [intersection],
    [area] and [map] it returns the code when every field of the template
    is a key of the parameters, and raises [KeyError] otherwise, naming
    the first field of the template, in the order of the text, that is
    not a key. *)
Theorem generate_geoprocessing_code_needs_its_fields operation params :
  match find (fun f => negb (PyDict.mem params f)) (template_fields operation) with
  | Some f => generate_geoprocessing_code operation params = Raised (KeyError f)
  | None => exists code, generate_geoprocessing_code operation params = Returned code
  end
  /\ (PyDict.mem templates operation = false ->
      generate_geoprocessing_code operation params
      = Returned ("# Operación '" ++ operation ++ "' no reconocida")%string)
  /\ PyDict.keys templates = ["buffer"; "intersection"; "area"; "map"]
  /\ template_fields "buffer" = ["distance"; "layer"; "layer"; "distance"]
  /\ template_fields "intersection" = ["layer1"; "layer2"; "layer1"; "layer2"]
  /\ template_fields "area" = ["layer"; "layer"]
  /\ template_fields "map" = ["layer"; "layer"; "tiles"; "color"].
Proof.
  split; [|split; [|repeat split; vm_compute; reflexivity]].
  - unfold template_fields, generate_geoprocessing_code, str_format.
    destruct (PyDict.get templates operation) as [template|] eqn:Hget.
    + apply render_fields. eapply templates_well_formed, Hget.
    + cbn [find]. eauto.
  - unfold PyDict.mem, generate_geoprocessing_code.
    destruct (PyDict.get templates operation); [discriminate | reflexivity].
Qed.

(** X26. [generate_geoprocessing_code] reads the parameters its template
    names and no other: two dictionaries of parameters that agree on the
    fields of the template give the same code, or the same error. *)
Theorem generate_geoprocessing_code_reads_fields_only operation params1 params2 :
  (forall f, In f (template_fields operation) ->
             PyDict.get params1 f = PyDict.get params2 f) ->
  generate_geoprocessing_code operation params1
  = generate_geoprocessing_code operation params2.
Proof.
  unfold template_fields, generate_geoprocessing_code, str_format.
  destruct (PyDict.get templates operation) as [template|]; auto.
  apply render_ext.
Qed.

Lemma generate_geoprocessing_code_reads_fields_only_witness :
  generate_geoprocessing_code "area" [("layer", "rios"); ("color", "red")]
  = generate_geoprocessing_code "area" [("tiles", "osm"); ("layer", "rios")].
Proof.
  apply (generate_geoprocessing_code_reads_fields_only "area").
  intros f Hf. vm_compute in Hf. destruct Hf as [<-|[<-|[]]]; reflexivity.
Defined.

End TemplateFacts.

(** * The connection state *)

Section ConnectionState.
Import DataStore Terms.
Variable fs : FileSystem.




End ConnectionState.


(** * The code block of a response *)

Section ExtractFacts.
Import Chat.

Lemma lazy_unfold a k grp s cap :
  lazy a k grp s cap
  = match k s cap with
    | Some g => Some g
    | None =>
        match s with
        | c :: s' =>
            if catom_matches a c then lazy a k grp s' (push grp c cap) else None
        | [] => None
        end
    end.
Proof. destruct s; reflexivity. Qed.

Lemma search_group_unfold r s :
  search_group r s
  = match run r false s [] with
    | Some g => Some g
    | None =>
        match s with
        | _ :: s' => search_group r s'
        | [] => None
        end
    end.
Proof. destruct s; reflexivity. Qed.

(** *** Literals *)

Lemma run_literal l : forall r s cap,
  run (map (fun c => Once (CLit c)) l ++ r) false (l ++ s) cap
  = run r false s cap.
Proof.
  induction l as [|c l IH]; intros r s cap; cbn [map app run]; auto.
  cbn [catom_matches push]. rewrite N.eqb_refl. apply IH.
Qed.

Lemma run_literal_inv l : forall r s cap g,
  run (map (fun c => Once (CLit c)) l ++ r) false s cap = Some g ->
  exists s', s = l ++ s' /\ run r false s' cap = Some g.
Proof.
  induction l as [|c l IH]; intros r s cap g; cbn [map app run].
  - intros H. exists s. auto.
  - destruct s as [|d s]; [discriminate|]. cbn [catom_matches push].
    destruct (N.eqb d c) eqn:E; [|discriminate].
    apply N.eqb_eq in E. subst d. intros H.
    destruct (IH _ _ _ _ H) as (s' & -> & Hs'). exists s'. auto.
Qed.

Lemma whitespace_not_backtick c : is_whitespace c = true -> N.eqb c backtick = false.
Proof.
  intros H. destruct (N.eqb c backtick) eqn:E; auto.
  apply N.eqb_eq in E. subst c. discriminate.
Qed.

(** *** The greedy star *)

Lemma greedy_max a k pre : forall post cap g,
  forallb (catom_matches a) pre = true ->
  match post with
  | c :: _ => catom_matches a c = false
  | [] => True
  end ->
  k post cap = Some g ->
  greedy a k false (pre ++ post) cap = Some g.
Proof.
  induction pre as [|c pre IH]; intros post cap g Hall Hpost Hk; cbn [app].
  - destruct post as [|d post]; cbn [greedy]; auto. now rewrite Hpost.
  - cbn [forallb] in Hall. apply andb_true_iff in Hall. destruct Hall as [Hc Hall].
    cbn [greedy push]. rewrite Hc. now rewrite (IH post cap g).
Qed.

Lemma greedy_none_k a k s cap :
  greedy a k false s cap = None -> k s cap = None.
Proof.
  destruct s as [|c s]; cbn [greedy push]; auto.
  destruct (catom_matches a c); auto.
  destruct (greedy a k false s cap); [discriminate | auto].
Qed.

Lemma greedy_inv a k s : forall cap g,
  greedy a k false s cap = Some g ->
  exists pre post,
    s = pre ++ post /\ forallb (catom_matches a) pre = true
    /\ k post cap = Some g
    /\ (forall c post', post = c :: post' -> catom_matches a c = true ->
          greedy a k false post' cap = None).
Proof.
  induction s as [|c s IH]; intros cap g; cbn [greedy push].
  - intros H. exists [], [].
    split; [reflexivity|]. split; [reflexivity|]. split; [exact H|].
    discriminate.
  - destruct (catom_matches a c) eqn:Hc.
    + destruct (greedy a k false s cap) as [g'|] eqn:Hg.
      * intros [= <-]. destruct (IH _ _ Hg) as (pre & post & -> & Hall & Hk & Hmax).
        exists (c :: pre), post.
        split; [reflexivity|]. split; [cbn; now rewrite Hc|].
        split; [exact Hk | exact Hmax].
      * intros H. exists [], (c :: s).
        split; [reflexivity|]. split; [reflexivity|]. split; [exact H|].
        intros c' post' [= <- <-] _. exact Hg.
    + intros H. exists [], (c :: s).
      split; [reflexivity|]. split; [reflexivity|]. split; [exact H|].
      intros c' post' [= <- <-] Hc'. congruence.
Qed.

(** *** The lazy star *)

Lemma lazy_min k pre : forall post cap g,
  k post (cap ++ pre) = Some g ->
  (forall pre1 pre2, pre = pre1 ++ pre2 -> pre2 <> [] ->
     k (pre2 ++ post) (cap ++ pre1) = None) ->
  lazy CAny k true (pre ++ post) cap = Some g.
Proof.
  induction pre as [|c pre IH]; intros post cap g Hk Hmin; cbn [app].
  - rewrite app_nil_r in Hk. rewrite lazy_unfold. now rewrite Hk.
  - rewrite lazy_unfold.
    pose proof (Hmin [] (c :: pre) eq_refl) as H0.
    rewrite app_nil_r in H0. cbn [app] in H0. rewrite H0 by discriminate.
    cbn [catom_matches push]. apply IH.
    + now rewrite <- app_assoc.
    + intros pre1 pre2 -> Hne. rewrite <- app_assoc. cbn [app].
      apply (Hmin (c :: pre1) pre2); auto.
Qed.

Lemma lazy_inv k s : forall cap g,
  lazy CAny k true s cap = Some g ->
  exists pre post,
    s = pre ++ post /\ k post (cap ++ pre) = Some g
    /\ (forall pre1 pre2, pre = pre1 ++ pre2 -> pre2 <> [] ->
          k (pre2 ++ post) (cap ++ pre1) = None).
Proof.
  induction s as [|c s IH]; intros cap g; rewrite lazy_unfold.
  - destruct (k [] cap) as [g'|] eqn:Hk; [|discriminate].
    intros [= <-]. exists [], []. rewrite (app_nil_r cap).
    split; [reflexivity|]. split; [exact Hk|].
    intros pre1 pre2 H Hne. apply eq_sym, app_eq_nil in H. tauto.
  - destruct (k (c :: s) cap) as [g'|] eqn:Hk.
    + intros [= <-]. exists [], (c :: s). rewrite (app_nil_r cap).
      split; [reflexivity|]. split; [exact Hk|].
      intros pre1 pre2 H Hne. apply eq_sym, app_eq_nil in H. tauto.
    + cbn [catom_matches push]. intros H.
      destruct (IH _ _ H) as (pre & post & -> & Hpost & Hmin).
      exists (c :: pre), post.
      split; [reflexivity|]. split.
      * rewrite <- app_assoc in Hpost. exact Hpost.
      * intros pre1 pre2 Heq Hne. destruct pre1 as [|d pre1]; cbn [app] in *.
        -- subst pre2. rewrite app_nil_r. exact Hk.
        -- injection Heq as <- ->.
           specialize (Hmin pre1 pre2 eq_refl Hne).
           rewrite <- app_assoc in Hmin. exact Hmin.
Qed.

Lemma lazy_some k pre : forall post cap g,
  k post (cap ++ pre) = Some g ->
  exists g', lazy CAny k true (pre ++ post) cap = Some g'.
Proof.
  induction pre as [|c pre IH]; intros post cap g Hk; cbn [app];
    rewrite lazy_unfold.
  - rewrite app_nil_r in Hk. rewrite Hk. eauto.
  - destruct (k (c :: pre ++ post) cap) as [g0|]; eauto.
    cbn [catom_matches push]. apply (IH post (cap ++ [c]) g).
    now rewrite <- app_assoc.
Qed.

(** *** The search and the closing fence *)

Lemma search_inv r s : forall g,
  search_group r s = Some g ->
  exists before rest, s = before ++ rest /\ run r false rest [] = Some g.
Proof.
  induction s as [|c s IH]; intros g; rewrite search_group_unfold.
  - destruct (run r false [] []) as [g'|] eqn:Hr; [|discriminate].
    intros [= <-]. exists [], []. auto.
  - destruct (run r false (c :: s) []) as [g'|] eqn:Hr.
    + intros [= <-]. exists [], (c :: s). auto.
    + intros H. destruct (IH _ H) as (before & rest & -> & Hrest).
      exists (c :: before), rest. auto.
Qed.

Lemma ticks_eq : of_string "```" = [backtick; backtick; backtick].
Proof. reflexivity. Qed.

Lemma run_ticks s cap :
  run (literal "```") false (of_string "```" ++ s) cap = Some cap.
Proof.
  unfold literal. rewrite <- (app_nil_r (map _ (of_string "```"))).
  now rewrite run_literal.
Qed.

Lemma run_ticks_inv s cap g :
  run (literal "```") false s cap = Some g ->
  g = cap /\ exists after, s = of_string "```" ++ after.
Proof.
  unfold literal. rewrite <- (app_nil_r (map _ (of_string "```"))).
  intros H. apply run_literal_inv in H. destruct H as (s' & -> & H).
  cbn [run] in H. injection H as <-. eauto.
Qed.

Lemma run_ticks_head c rest cap :
  N.eqb c backtick = false ->
  run (literal "```") false (c :: rest) cap = None.
Proof.
  intros Hc.
  change (literal "```") with (Once (CLit backtick) :: tl (literal "```")).
  cbn [run catom_matches]. now rewrite Hc.
Qed.

Lemma code_block_head c rest :
  N.eqb c backtick = false ->
  run CODE_BLOCK false (c :: rest) [] = None.
Proof.
  intros Hc.
  change CODE_BLOCK with (Once (CLit backtick) :: tl CODE_BLOCK).
  cbn [run catom_matches]. now rewrite Hc.
Qed.

Lemma search_skip before : forall rest,
  no_backtick before = true ->
  search_group CODE_BLOCK (before ++ rest) = search_group CODE_BLOCK rest.
Proof.
  induction before as [|c before IH]; intros rest H; cbn [app]; auto.
  cbn [no_backtick forallb] in H. apply andb_true_iff in H. destruct H as [Hc H].
  apply negb_true_iff in Hc.
  rewrite search_group_unfold, (code_block_head c _ Hc). now apply IH.
Qed.

Lemma close_ok ws after cap :
  all_space ws = true ->
  run (GroupClose :: Greedy CSpace :: literal "```") true
      (ws ++ of_string "```" ++ after) cap = Some cap.
Proof.
  intros Hws. cbn [run]. apply greedy_max.
  - exact Hws.
  - rewrite ticks_eq. reflexivity.
  - apply run_ticks.
Qed.

Lemma close_inv s cap g :
  run (GroupClose :: Greedy CSpace :: literal "```") true s cap = Some g ->
  g = cap
  /\ exists ws after, s = ws ++ of_string "```" ++ after /\ all_space ws = true.
Proof.
  cbn [run]. intros H.
  destruct (greedy_inv _ _ _ _ _ H) as (ws & post & -> & Hws & Hk & _).
  destruct (run_ticks_inv _ _ _ Hk) as (-> & after & ->).
  split; auto. exists ws, after. auto.
Qed.

Lemma close_blocked ws : forall c rest cap,
  all_space ws = true -> is_whitespace c = false ->
  N.eqb c backtick = false ->
  run (GroupClose :: Greedy CSpace :: literal "```") true
      (ws ++ c :: rest) cap = None.
Proof.
  cbn [run].
  induction ws as [|w ws IH]; intros c rest cap Hws Hc Hb; cbn [app greedy push].
  - cbn [catom_matches]. rewrite Hc. now apply run_ticks_head.
  - cbn [all_space forallb] in Hws. apply andb_true_iff in Hws.
    destruct Hws as [Hw Hws]. cbn [catom_matches]. rewrite Hw.
    rewrite (IH c rest cap Hws Hc Hb).
    apply run_ticks_head. now apply whitespace_not_backtick.
Qed.

(** *** Stripped text *)

Lemma space_prefix l :
  all_space l = true
  \/ exists ws c rest,
       l = ws ++ c :: rest /\ all_space ws = true /\ is_whitespace c = false.
Proof.
  induction l as [|c l IH].
  - now left.
  - destruct (is_whitespace c) eqn:Hc.
    + destruct IH as [IH | (ws & d & rest & -> & Hws & Hd)].
      * left. cbn. now rewrite Hc.
      * right. exists (c :: ws), d, rest. cbn. rewrite Hc. auto.
    + right. exists [], c, l. auto.
Qed.

Lemma ends_with_space_app l1 l2 :
  l2 <> [] -> ends_with_space (l1 ++ l2) = ends_with_space l2.
Proof.
  intros Hne. unfold ends_with_space. rewrite rev_app_distr.
  destruct (rev l2) as [|d t] eqn:E; [|reflexivity].
  apply (f_equal (@rev N)) in E. rewrite rev_involutive in E. now subst.
Qed.

Lemma all_space_ends l : l <> [] -> all_space l = true -> ends_with_space l = true.
Proof.
  intros Hne Hall. unfold ends_with_space.
  destruct (rev l) as [|d t] eqn:E.
  - apply (f_equal (@rev N)) in E. rewrite rev_involutive in E. now subst.
  - cbn. unfold all_space in Hall. rewrite forallb_forall in Hall.
    apply Hall. apply in_rev. rewrite E. now left.
Qed.

Lemma ends_with_space_inv l :
  ends_with_space l = true ->
  exists l0 c, l = l0 ++ [c] /\ is_whitespace c = true.
Proof.
  unfold ends_with_space. destruct (rev l) as [|d t] eqn:E; [discriminate|].
  cbn. intros Hd. exists (rev t), d. split; auto.
  apply (f_equal (@rev N)) in E. now rewrite rev_involutive in E.
Qed.

Lemma stripped_suffix_blocked code pre1 pre2 post cap :
  code = pre1 ++ pre2 -> pre2 <> [] ->
  no_backtick code = true -> ends_with_space code = false ->
  run (GroupClose :: Greedy CSpace :: literal "```") true (pre2 ++ post) cap
  = None.
Proof.
  intros -> Hne Hnb Hend.
  rewrite (ends_with_space_app pre1 pre2 Hne) in Hend.
  unfold no_backtick in Hnb. rewrite forallb_app in Hnb.
  apply andb_true_iff in Hnb. destruct Hnb as [_ Hnb].
  destruct (space_prefix pre2) as [Hall | (ws & c & rest & -> & Hws & Hc)].
  - rewrite (all_space_ends pre2 Hne Hall) in Hend. discriminate.
  - rewrite forallb_app in Hnb. apply andb_true_iff in Hnb.
    destruct Hnb as [_ Hnb]. cbn [forallb] in Hnb.
    apply andb_true_iff in Hnb. destruct Hnb as [Hb _].
    apply negb_true_iff in Hb.
    rewrite <- app_assoc. cbn [app]. now apply close_blocked.
Qed.

(** X29. A response whose first backtick opens a fence
    [```python], followed by white space, a text without backticks that
    neither starts nor ends with white space, white space and a closing
    [```], yields exactly that text as the code to run: the white space
    around it is dropped and what follows the closing fence is ignored. *)
Theorem extract_code_fenced_block (before ws1 code ws2 after : text) :
  no_backtick before = true ->
  all_space ws1 = true -> all_space ws2 = true ->
  no_backtick code = true ->
  starts_with_space code = false -> ends_with_space code = false ->
  extract_code
    (before ++ of_string "```python" ++ ws1 ++ code ++ ws2
       ++ of_string "```" ++ after)
  = Some code.
Proof.
  intros Hbefore Hws1 Hws2 Hnb Hstart Hend.
  unfold extract_code. rewrite (search_skip before _ Hbefore).
  rewrite search_group_unfold.
  assert (Hrun : run CODE_BLOCK false
                   (of_string "```python" ++ ws1 ++ code ++ ws2
                      ++ of_string "```" ++ after) [] = Some code);
    [|now rewrite Hrun].
  unfold CODE_BLOCK, literal at 1. rewrite run_literal.
  cbn [app run].
  destruct code as [|c code'].
  - cbn [app]. rewrite app_assoc. apply greedy_max.
    + rewrite forallb_app. apply andb_true_iff. split; assumption.
    + rewrite ticks_eq. reflexivity.
    + cbn [run]. apply (lazy_min _ [] (of_string "```" ++ after) [] []).
      * apply (close_ok [] after []). reflexivity.
      * intros pre1 pre2 H Hne. apply eq_sym, app_eq_nil in H. tauto.
  - apply greedy_max.
    + exact Hws1.
    + exact Hstart.
    + cbn [run].
      apply (lazy_min _ (c :: code') (ws2 ++ of_string "```" ++ after) []).
      * apply close_ok. exact Hws2.
      * intros pre1 pre2 Heq Hne.
        now apply (stripped_suffix_blocked (c :: code') pre1 pre2).
Qed.

(** X30. Whatever text is taken out of a response as code sits between a
    [```python] fence and a closing [```], separated from them by white
    space only; it neither starts nor ends with a white-space character and
    contains no run of three backticks. *)
Theorem extract_code_stripped (response code : text) :
  extract_code response = Some code ->
  (exists before ws1 ws2 after,
     response = before ++ of_string "```python" ++ ws1 ++ code ++ ws2
                  ++ of_string "```" ++ after
     /\ all_space ws1 = true /\ all_space ws2 = true)
  /\ starts_with_space code = false
  /\ ends_with_space code = false
  /\ (forall c1 c2, code <> c1 ++ of_string "```" ++ c2).
Proof.
  unfold extract_code. intros H.
  destruct (search_inv _ _ _ H) as (before & rest & -> & Hrun).
  unfold CODE_BLOCK, literal at 1 in Hrun.
  destruct (run_literal_inv _ _ _ _ _ Hrun) as (s1 & -> & Hs1).
  cbn [app run] in Hs1.
  destruct (greedy_inv _ _ _ _ _ Hs1) as (ws1 & post & -> & Hws1 & Hk1 & Hmax).
  cbn [run] in Hk1.
  destruct (lazy_inv _ _ _ _ Hk1) as (pre & post2 & -> & Hk2 & Hmin).
  cbn [app] in Hk2.
  destruct (close_inv _ _ _ Hk2) as (-> & ws2 & after & -> & Hws2).
  split; [|split; [|split]].
  - exists before, ws1, ws2, after. auto.
  - destruct pre as [|c pre']; [reflexivity|].
    cbn [starts_with_space]. destruct (is_whitespace c) eqn:Hc; [|reflexivity].
    exfalso.
    pose proof (Hmax c _ eq_refl Hc) as Hnone.
    apply greedy_none_k in Hnone. cbn [run] in Hnone.
    destruct (lazy_some
                (run (GroupClose :: Greedy CSpace :: literal "```") true)
                pre' (ws2 ++ of_string "```" ++ after) [] pre'
                (close_ok ws2 after _ Hws2)) as (g' & Hg').
    discriminate (eq_trans (eq_sym Hg') Hnone).
  - destruct (ends_with_space pre) eqn:He; [|reflexivity]. exfalso.
    destruct (ends_with_space_inv _ He) as (l0 & c & -> & Hc).
    assert (Hne : [c] <> []) by discriminate.
    pose proof (Hmin l0 [c] eq_refl Hne) as Hnone.
    assert (Hsp : all_space (c :: ws2) = true) by (cbn; now rewrite Hc).
    discriminate (eq_trans (eq_sym (close_ok (c :: ws2) after l0 Hsp)) Hnone).
  - intros c1 c2 ->.
    assert (Hne : of_string "```" ++ c2 <> [])
      by (rewrite ticks_eq; discriminate).
    pose proof (Hmin c1 _ eq_refl Hne) as Hnone.
    rewrite <- app_assoc in Hnone.
    discriminate
      (eq_trans (eq_sym (close_ok [] (c2 ++ ws2 ++ of_string "```" ++ after)
                           c1 eq_refl)) Hnone).
Qed.

End ExtractFacts.

(** * Examples for the connection state and the code block *)

Section LateSamples.
Import DataStore Terms Sample Chat.


Lemma extract_code_fenced_block_witness :
  extract_code
    (of_string "Mapa: " ++ of_string "```python" ++ [10%N]
       ++ of_string "m = folium.Map()" ++ [10%N; 32%N]
       ++ of_string "```" ++ of_string " y listo ```")
  = Some (of_string "m = folium.Map()").
Proof. apply extract_code_fenced_block; reflexivity. Defined.

Lemma extract_code_stripped_witness :
  extract_code (of_string "```python  print(1) ``` ```")
  = Some (of_string "print(1)")
  /\ starts_with_space (of_string "print(1)") = false
  /\ ends_with_space (of_string "print(1)") = false.
Proof.
  assert (H : extract_code (of_string "```python  print(1) ``` ```")
              = Some (of_string "print(1)")) by reflexivity.
  split; [exact H|].
  destruct (extract_code_stripped _ _ H) as (_ & Hs & He & _).
  split; assumption.
Defined.

End LateSamples.
